(** * Phantom: worktree lifecycle, execution bridge, post-delete hooks and
      configuration validation

    A shallow embedding of the TypeScript sources of the phantom worktree
    manager.  Asynchronous functions that talk to the file system, to git,
    to the process backend or to the terminal are embedded as programs over
    an explicit signature of calls ([Call]); a run of a program against an
    arbitrary backend records every call together with its answer, so that
    statements such as "the backend is never asked" are statements about the
    recorded history. *)

From stdpp Require Import base option list strings gmap.
From Stdlib Require Import ZArith.

Local Open Scope Z_scope.
Local Set Warnings "-clear-no-such-hyp".

(** ** Results ([Result], [ok], [err], [isErr], [isOk] of the shared package) *)

Inductive Result (T Er : Type) : Type :=
| ok (value : T)
| err (error : Er).

Arguments ok {T Er} value.
Arguments err {T Er} error.

Definition isErr {T Er} (r : Result T Er) : bool :=
  match r with ok _ => false | err _ => true end.

Definition isOk {T Er} (r : Result T Er) : bool :=
  match r with ok _ => true | err _ => false end.

(** ** Errors

    The worktree error classes are those of [worktree/errors.ts]: the
    exported base class [WorktreeError], built from any message (a direct
    instance, or an instance of a subclass declared elsewhere), and its four
    subclasses, each built from a name.  An error object built by a
    collaborator whose class is no worktree error (git failures, process
    failures) is an [ExternalError]: its class name, its message and, when
    the object has one, its [exitCode] property. *)

Inductive Error : Type :=
| WorktreeError (text : string)
| WorktreeNotFoundError (name : string)
| WorktreeAlreadyExistsError (name : string)
| InvalidWorktreeNameError (name : string)
| BranchNotFoundError (branchName : string)
| ExternalError (className message : string) (exitCode : option Z).

Definition message (e : Error) : string :=
  match e with
  | WorktreeError text => text
  | WorktreeNotFoundError name => "Worktree '" +:+ name +:+ "' not found"
  | WorktreeAlreadyExistsError name => "Worktree '" +:+ name +:+ "' already exists"
  | InvalidWorktreeNameError name => "Invalid worktree name: '" +:+ name +:+ "'"
  | BranchNotFoundError branchName => "Branch '" +:+ branchName +:+ "' not found"
  | ExternalError _ m _ => m
  end.

(** ["exitCode" in e ? (e.exitCode ?? fallback) : fallback] *)
Definition exitCodeOr (e : Error) (fallback : Z) : Z :=
  match e with
  | ExternalError _ _ (Some c) => c
  | _ => fallback
  end.

Definition instanceofWorktreeNotFoundError (e : Error) : bool :=
  match e with WorktreeNotFoundError _ => true | _ => false end.

(** [instanceof WorktreeError]: the base class and its four subclasses. *)
Definition instanceofWorktreeError (e : Error) : bool :=
  match e with ExternalError _ _ _ => false | _ => true end.

(** Errors of the configuration loader.  [ConfigValidationError] prefixes
    the detail it is built from. *)
Inductive ConfigError : Type :=
| ConfigNotFoundError (msg : string)
| ConfigParseError (msg : string)
| ConfigValidationError (detail : string).

Definition configMessage (e : ConfigError) : string :=
  match e with
  | ConfigNotFoundError m => m
  | ConfigParseError m => m
  | ConfigValidationError d => "Invalid phantom.config.json: " +:+ d
  end.

(** ** Values exchanged with the collaborators *)

Record WorktreeInfo : Type := { path : string }.

Record SpawnSuccess : Type := { exitCode : Z }.

Inductive StdioMode : Type := ignore | inherit | pipe.

(** [StdioOptions] of [node:child_process]: one mode for the three
    standard streams, or one mode per stream. *)
Inductive StdioOptions : Type :=
| StdioAll (mode : StdioMode)
| StdioEach (stdin stdout stderr : StdioMode).

Definition stdinOf (s : StdioOptions) : StdioMode :=
  match s with StdioAll m => m | StdioEach i _ _ => i end.
Definition stdoutOf (s : StdioOptions) : StdioMode :=
  match s with StdioAll m => m | StdioEach _ o _ => o end.
Definition stderrOf (s : StdioOptions) : StdioMode :=
  match s with StdioAll m => m | StdioEach _ _ e => e end.

(** The [options] object of a spawn request; a field left out of the object
    literal is [None]. *)
Record SpawnOptions : Type := {
  cwd : string;
  env : option (gmap string string);
  stdio : option StdioOptions
}.

(** [command] is [None] when the destructured command array is empty. *)
Record SpawnConfig : Type := {
  command : option string;
  args : list string;
  options : SpawnOptions
}.

Record PostCreate : Type := {
  copyFiles : option (list string);
  pc_commands : option (list string)
}.

Record PostDelete : Type := { commands : option (list string) }.

Record PhantomConfig : Type := {
  postCreate : option PostCreate;
  postDelete : option PostDelete
}.

Record DeleteWorktreeSuccess : Type := { dw_message : string }.

Record SelectedWorktree : Type := { sel_name : string }.

(** A call that signals failure by throwing: the thrown value is kept as
    the text the handler's [catch] derives from it. *)
Inductive Thrown (A : Type) : Type :=
| returned (a : A)
| thrown (text : string).

Arguments returned {A} a.
Arguments thrown {A} text.

(** ** The calls a program makes to its collaborators

    Each constructor is one imported function and carries the arguments of
    the call; the index is the type of the value the call resolves to. *)

Inductive Call : Type -> Type :=
(* node:fs *)
| ExistsSync (p : string) : Call bool
(* git package *)
| BranchExists (gitRoot name : string) : Call (Result bool Error)
| AttachWorktree (gitRoot worktreePath name : string) : Call (Result unit Error)
| GetGitRoot : Call (Thrown string)
| GetCurrentWorktree (gitRoot : string) : Call (Thrown (option string))
(* core *)
| ValidateWorktreeExists (gitRoot name : string) : Call (Result WorktreeInfo Error)
| DeleteWorktree (gitRoot name : string) (force : bool)
    : Call (Result DeleteWorktreeSuccess Error)
| SelectWorktreeWithFzf (gitRoot : string)
    : Call (Result (option SelectedWorktree) Error)
| LoadConfig (gitRoot : string) : Call (Result PhantomConfig ConfigError)
(* process package *)
| SpawnProcess (config : SpawnConfig) : Call (Result SpawnSuccess Error)
(* output *)
| OutputLog (text : string) : Call unit
| OutputWarn (text : string) : Call unit
| OutputError (text : string) : Call unit.

(** A completed call: the call and what it resolved to. *)
Inductive Done : Type :=
| done_call {X : Type} (c : Call X) (x : X).

Abbreviation History := (list Done).

(** ** Programs *)

Inductive Prog (R : Type) : Type :=
| Ret (r : R)
| Await {X : Type} (c : Call X) (k : X -> Prog R).

Arguments Ret {R} r.
Arguments Await {R X} c k.

Fixpoint bind {A B} (p : Prog A) (f : A -> Prog B) : Prog B :=
  match p with
  | Ret a => f a
  | Await c k => Await c (fun x => bind (k x) f)
  end.

Definition await {X} (c : Call X) : Prog X := Await c Ret.

#[global] Instance Prog_ret : MRet Prog := fun _ r => Ret r.
#[global] Instance Prog_bind : MBind Prog := fun _ _ f p => bind p f.

(** A backend answers every call; its answer may depend on everything that
    happened before. *)
Definition Backend : Type := History -> forall X, Call X -> X.

(** [run h hist p]: the result of [p] and the history when it returns. *)
Fixpoint run {R} (h : Backend) (hist : History) (p : Prog R) : R * History :=
  match p with
  | Ret r => (r, hist)
  | Await c k =>
      let x := h hist _ c in
      run h (hist ++ [done_call c x]) (k x)
  end.

(** ** Core operations *)

Record ExecInWorktreeOptions : Type := { interactive : option bool }.

(** [process.env.SHELL || "/bin/sh"]: an unset or empty variable is falsy. *)
Definition shellOf (processEnv : gmap string string) : string :=
  match processEnv !! "SHELL" with
  | Some s => if decide (s = "") then "/bin/sh" else s
  | None => "/bin/sh"
  end.

(** Modelled from the spec: [getPhantomEnv] of the process package, whose
    module is missing.  Section 4.5 describes "two identifying overrides (an
    active marker and the worktree's name) plus the worktree's path"; the
    test of [shellInWorktree] fixes the three keys and the marker's value. *)
Definition getPhantomEnv (worktreeName worktreePath : string) : gmap string string :=
  {[ "PHANTOM" := "1";
     "PHANTOM_NAME" := worktreeName;
     "PHANTOM_PATH" := worktreePath ]}.

Section Core.

(** [validateWorktreeName] of [worktree/validate.ts] and [getWorktreePath]
    of [paths.ts] are pure helpers of other modules: parameters here. *)
Variable validateWorktreeName : string -> Result unit Error.
Variable getWorktreePath : string -> string -> string.

(** The environment of the running process ([process.env]). *)
Variable processEnv : gmap string string.

Definition attachWorktreeCore (gitRoot name : string)
  : Prog (Result string Error) :=
  match validateWorktreeName name with
  | err e => mret (err e)
  | ok _ =>
      let worktreePath := getWorktreePath gitRoot name in
      present ← await (ExistsSync worktreePath);
      if present : bool then mret (err (WorktreeAlreadyExistsError name))
      else
        branchCheckResult ← await (BranchExists gitRoot name);
        match branchCheckResult with
        | err e => mret (err e)
        | ok false => mret (err (BranchNotFoundError name))
        | ok true =>
            attachResult ← await (AttachWorktree gitRoot worktreePath name);
            match attachResult with
            | err e => mret (err e)
            | ok _ => mret (ok worktreePath)
            end
        end
  end.

Definition execInWorktree (gitRoot worktreeName : string)
    (cmdline : list string) (opts : ExecInWorktreeOptions)
  : Prog (Result SpawnSuccess Error) :=
  validation ← await (ValidateWorktreeExists gitRoot worktreeName);
  match validation with
  | err e => mret (err e)
  | ok info =>
      let worktreePath := path info in
      let cmd := head cmdline in
      let rest := tail cmdline in
      let stdio :=
        match interactive opts with
        | Some true => StdioAll inherit
        | _ => StdioEach ignore inherit inherit
        end in
      await (SpawnProcess
               {| command := cmd;
                  args := rest;
                  options := {| cwd := worktreePath;
                                env := None;
                                stdio := Some stdio |} |})
  end.

(** Modelled from the spec: [shellInWorktree] ([enterShell] of section
    4.5), whose module is missing while its test and its caller are at
    hand.  It
    "resolves the worktree path via Validation Service", runs "the user's
    configured shell ..., falling back to a system-default shell if
    unset", with "working directory as the worktree path" and environment
    "the caller's environment plus" the overrides of [getPhantomEnv]; the
    test pins the empty argument list and the absence of a spawn when the
    validation fails. *)
Definition shellInWorktree (gitRoot worktreeDirectory worktreeName : string)
  : Prog (Result SpawnSuccess Error) :=
  validation ← await (ValidateWorktreeExists gitRoot worktreeName);
  match validation with
  | err e => mret (err e)
  | ok info =>
      let worktreePath := path info in
      await (SpawnProcess
               {| command := Some (shellOf processEnv);
                  args := [];
                  options :=
                    {| cwd := worktreePath;
                       env := Some (getPhantomEnv worktreeName worktreePath
                                      ∪ processEnv);
                       stdio := None |} |})
  end.

End Core.

(** ** The [delete] command handler and its post-delete commands *)

(** How a handler's code path ends.  [exitWithError] and [exitWithSuccess]
    of [cli/errors.ts] end the process and never return (the handler reads
    [cmdResult.value] right after [if (isErr(cmdResult)) { exitWithError(..) }],
    which type-checks only for a function of type [never]); they are kept
    as the request they make.  [Throw] is an exception on its way to the
    nearest [catch]. *)
Inductive Completion (A : Type) : Type :=
| Normal (a : A)
| ExitWithError (text : string) (code : Z)
| ExitWithSuccess
| Throw (text : string).

Arguments Normal {A} a.
Arguments ExitWithError {A} text code.
Arguments ExitWithSuccess {A}.
Arguments Throw {A} text.

(** Sequencing of statements: the rest runs only after a normal completion. *)
Definition andThen {A B} (p : Prog (Completion A)) (f : A -> Prog (Completion B))
  : Prog (Completion B) :=
  r ← p;
  match r with
  | Normal a => f a
  | ExitWithError t c => mret (ExitWithError t c)
  | ExitWithSuccess => mret ExitWithSuccess
  | Throw t => mret (Throw t)
  end.

(** [try { body } catch (error) { handler(text of error) }] *)
Definition tryCatch {A} (body : Prog (Completion A))
    (handler : string -> Prog (Completion A)) : Prog (Completion A) :=
  r ← body;
  match r with
  | Throw t => handler t
  | _ => mret r
  end.

Definition exitWithError {A} (text : string) (code : Z) : Prog (Completion A) :=
  mret (ExitWithError text code).

Definition exitWithSuccess {A} : Prog (Completion A) := mret ExitWithSuccess.

(** [exitCodes] of [cli/errors.ts]. *)
Record ExitCodes : Type := {
  success : Z;
  generalError : Z;
  notFound : Z;
  validationError : Z
}.

Record DeleteValues : Type := {
  force : option bool;
  current : option bool;
  fzf : option bool
}.

Record ParsedArgs : Type := {
  values : DeleteValues;
  positionals : list string
}.

(** [haystack.includes(needle)] *)
Definition includes (haystack needle : string) : bool :=
  bool_decide (is_Some (String.index 0 needle haystack)).

Definition newline : string := String (Ascii.ascii_of_nat 10) "".

Section DeleteHandler.

Variable exitCodes : ExitCodes.
Variable processEnv : gmap string string.

(** [parseArgs] of [node:util] applied to the handler's option
    declaration; it is strict and throws on an argument it does not know. *)
Variable parseArgs : list string -> Thrown ParsedArgs.

(** Lines 72-80: what the handler tells the user about a configuration
    that failed to load. *)
Definition configWarning (configResult : Result PhantomConfig ConfigError)
  : Prog unit :=
  match configResult with
  | err (ConfigValidationError _ as e) =>
      await (OutputWarn ("Configuration warning: " +:+ configMessage e))
  | err (ConfigParseError _ as e) =>
      await (OutputWarn ("Configuration warning: " +:+ configMessage e))
  | err (ConfigNotFoundError _) => mret tt
  | ok _ => mret tt
  end.

(** One turn of the loop of lines 127-152. *)
Definition postDeleteCommand (gitRoot cmdText : string)
  : Prog (Completion unit) :=
  await (OutputLog ("Executing: " +:+ cmdText));;
  let shell := shellOf processEnv in
  cmdResult ← execInWorktree gitRoot "." [shell; "-c"; cmdText]
                              {| interactive := None |};
  match cmdResult with
  | err e =>
      await (OutputError ("Failed to execute command: " +:+ message e));;
      let code := exitCodeOr e (generalError exitCodes) in
      exitWithError ("Post-delete command failed: " +:+ cmdText) code
  | ok v =>
      if decide (exitCode v = 0) then mret (Normal tt)
      else exitWithError ("Post-delete command failed: " +:+ cmdText)
                         (exitCode v)
  end.

(** [for (const command of commands) { ... }] *)
Fixpoint postDeleteCommands (gitRoot : string) (cmds : list string)
  : Prog (Completion unit) :=
  match cmds with
  | [] => mret (Normal tt)
  | cmdText :: rest =>
      andThen (postDeleteCommand gitRoot cmdText)
              (fun _ => postDeleteCommands gitRoot rest)
  end.

(** Lines 123-153. *)
Definition postDeleteStage (gitRoot : string)
    (configResult : Result PhantomConfig ConfigError)
  : Prog (Completion unit) :=
  match configResult with
  | ok cfg =>
      match postDelete cfg ≫= commands with
      | Some cmds =>
          await (OutputLog (newline +:+ "Running post-delete commands..."));;
          postDeleteCommands gitRoot cmds
      | None => mret (Normal tt)
      end
  | err _ => mret (Normal tt)
  end.

(** Lines 82-103: the name of the worktree to delete. *)
Definition selectWorktreeName (gitRoot : string) (deleteCurrent useFzf : bool)
    (pos : list string) : Prog (Completion string) :=
  if deleteCurrent then
    cur ← await (GetCurrentWorktree gitRoot);
    match cur with
    | thrown t => mret (Throw t)
    | returned (Some n) =>
        if decide (n = "") then
          exitWithError "Not in a worktree directory. The --current option can only be used from within a worktree."
                        (validationError exitCodes)
        else mret (Normal n)
    | returned None =>
        exitWithError "Not in a worktree directory. The --current option can only be used from within a worktree."
                      (validationError exitCodes)
    end
  else if useFzf then
    selectResult ← await (SelectWorktreeWithFzf gitRoot);
    match selectResult with
    | err e => exitWithError (message e) (generalError exitCodes)
    | ok None => exitWithSuccess
    | ok (Some w) => mret (Normal (sel_name w))
    end
  else
    (* [positionals[0]]: the guards before the [try] leave no way here
       with an empty list *)
    mret (Normal (default "" (head pos))).

Definition deleteHandler (argv : list string) : Prog (Completion unit) :=
  match parseArgs argv with
  | thrown t => mret (Throw t)
  | returned parsed =>
      let pos := positionals parsed in
      let deleteCurrent := default false (current (values parsed)) in
      let useFzf := default false (fzf (values parsed)) in
      let given := bool_decide (length pos ≠ 0%nat) in
      if negb given && negb deleteCurrent && negb useFzf then
        exitWithError "Please provide a worktree name to delete, use --current to delete the current worktree, or use --fzf for interactive selection"
                      (validationError exitCodes)
      else if (given || useFzf) && deleteCurrent then
        exitWithError "Cannot specify --current with a worktree name or --fzf option"
                      (validationError exitCodes)
      else if given && useFzf then
        exitWithError "Cannot specify both a worktree name and --fzf option"
                      (validationError exitCodes)
      else
        let forceDelete := default false (force (values parsed)) in
        tryCatch
          (root ← await GetGitRoot;
           match root with
           | thrown t => mret (Throw t)
           | returned gitRoot =>
               configResult ← await (LoadConfig gitRoot);
               configWarning configResult;;
               andThen (selectWorktreeName gitRoot deleteCurrent useFzf pos)
                 (fun worktreeName =>
                    result ← await (DeleteWorktree gitRoot worktreeName forceDelete);
                    match result with
                    | err e =>
                        let code :=
                          if instanceofWorktreeNotFoundError e
                          then validationError exitCodes
                          else if instanceofWorktreeError e
                                  && includes (message e) "uncommitted changes"
                          then validationError exitCodes
                          else generalError exitCodes in
                        exitWithError (message e) code
                    | ok v =>
                        await (OutputLog (dw_message v));;
                        andThen (postDeleteStage gitRoot configResult)
                                (fun _ => exitWithSuccess)
                    end)
           end)
          (fun t => exitWithError t (generalError exitCodes))
  end.

End DeleteHandler.

(** ** Configuration validation ([config/validate.ts]) *)

(** A value of type [unknown], as [JSON.parse] or a caller may hand it in.
    The properties of an object are listed in insertion order and a key is
    read at its first binding.  Only the type of a number matters here, so
    its payload is an integer. *)
#[warnings="-register-all"]
Inductive JsValue : Type :=
| JsUndefined
| JsNull
| JsBool (b : bool)
| JsNumber (n : Z)
| JsString (s : string)
| JsArray (items : list JsValue)
| JsObject (props : list (string * JsValue)).

Fixpoint assoc (key : string) (props : list (string * JsValue)) : option JsValue :=
  match props with
  | [] => None
  | (k, v) :: rest => if decide (k = key) then Some v else assoc key rest
  end.

(** [v.key]: a property that is not there reads as [undefined]. *)
Definition getProp (v : JsValue) (key : string) : JsValue :=
  match v with
  | JsObject props => default JsUndefined (assoc key props)
  | _ => JsUndefined
  end.

Definition isUndefined (v : JsValue) : bool :=
  match v with JsUndefined => true | _ => false end.

(** [typeof v === "string"] *)
Definition isString (v : JsValue) : bool :=
  match v with JsString _ => true | _ => false end.

(** [Array.isArray(v)] *)
Definition isArray (v : JsValue) : bool :=
  match v with JsArray _ => true | _ => false end.

(** Modelled from the spec: the type guard [isObject] of the shared
    package, whose module is missing.  The configuration is "an already-validated
    object" with named optional sections: a value that is an object and is
    neither [null] nor an array. *)
Definition isObject (v : JsValue) : bool :=
  match v with JsObject _ => true | _ => false end.

(** [items.every((x: unknown) => typeof x === "string")] *)
Definition everyString (v : JsValue) : bool :=
  match v with
  | JsArray items => forallb isString items
  | _ => false
  end.

Definition validateConfig (config : JsValue) : Result JsValue ConfigError :=
  if negb (isObject config) then
    err (ConfigValidationError "Configuration must be an object")
  else
    let cfg := config in
    let checked : option ConfigError :=
      if negb (isUndefined (getProp cfg "postCreate")) then
        if negb (isObject (getProp cfg "postCreate")) then
          Some (ConfigValidationError "postCreate must be an object")
        else
          let postCreate := getProp cfg "postCreate" in
          let copyFilesError :=
            if negb (isUndefined (getProp postCreate "copyFiles")) then
              if negb (isArray (getProp postCreate "copyFiles")) then
                Some (ConfigValidationError "postCreate.copyFiles must be an array")
              else if negb (everyString (getProp postCreate "copyFiles")) then
                Some (ConfigValidationError
                        "postCreate.copyFiles must contain only strings")
              else None
            else None in
          match copyFilesError with
          | Some e => Some e
          | None =>
              if negb (isUndefined (getProp postCreate "commands")) then
                if negb (isArray (getProp postCreate "commands")) then
                  Some (ConfigValidationError "postCreate.commands must be an array")
                else if negb (everyString (getProp postCreate "commands")) then
                  Some (ConfigValidationError
                          "postCreate.commands must contain only strings")
                else None
              else None
          end
      else None in
    match checked with
    | Some e => err e
    | None => ok config
    end.

(** The declared schema, in the words of the specification
    ([{postCreate: {copyFiles: string[], commands: string[]},
       postDelete: {commands: string[]}}], every part optional).  An optional
    list of strings is absent or an array of strings. *)
Definition optionalStrings (v : JsValue) : bool :=
  isUndefined v || everyString v.

(** The declared shape of [postCreate]. *)
Definition postCreateShape (v : JsValue) : bool :=
  isUndefined v
  || (isObject v
      && optionalStrings (getProp v "copyFiles")
      && optionalStrings (getProp v "commands")).

(** The declared shape of [postDelete]; the delete handler relies on it
    when it reads [postDelete?.commands] and iterates over the result. *)
Definition postDeleteShape (v : JsValue) : bool :=
  isUndefined v || (isObject v && optionalStrings (getProp v "commands")).

(** ** Observations on a history *)

(** The record a call leaves when it is made after [hist]. *)
Definition answered (h : Backend) (hist : History) {X} (c : Call X) : Done :=
  done_call c (h hist X c).

(** Calls to the git backend. *)
Definition isGitCall (d : Done) : bool :=
  match d with
  | done_call c _ =>
      match c with
      | BranchExists _ _ | AttachWorktree _ _ _
      | GetGitRoot | GetCurrentWorktree _ => true
      | _ => false
      end
  end.

(** Calls that may change the file system: attaching or deleting a
    worktree, and running a child process. *)
Definition isMutation (d : Done) : bool :=
  match d with
  | done_call c _ =>
      match c with
      | AttachWorktree _ _ _ | DeleteWorktree _ _ _ | SpawnProcess _ => true
      | _ => false
      end
  end.

(** The request and the answer of a call to the process backend. *)
Definition spawnOf (d : Done) : option (SpawnConfig * Result SpawnSuccess Error) :=
  match d with
  | done_call c x =>
      match c in Call X return X -> option (SpawnConfig * Result SpawnSuccess Error) with
      | SpawnProcess config => fun r => Some (config, r)
      | _ => fun _ => None
      end x
  end.

Definition isSpawn (d : Done) : bool := bool_decide (is_Some (spawnOf d)).

(** The requests handed to the process backend, oldest first. *)
Definition spawned (hist : History) : list SpawnConfig :=
  omap (fun d => fst <$> spawnOf d) hist.

Definition warningOf (d : Done) : option string :=
  match d with
  | done_call c _ =>
      match c with
      | OutputWarn text => Some text
      | _ => None
      end
  end.

(** The warnings shown to the user, oldest first. *)
Definition warnings (hist : History) : list string := omap warningOf hist.

Definition errorOutputOf (d : Done) : option string :=
  match d with
  | done_call c _ =>
      match c with
      | OutputError text => Some text
      | _ => None
      end
  end.

(** The texts written to the error output, oldest first. *)
Definition errorOutputs (hist : History) : list string := omap errorOutputOf hist.

(** The answers of the calls that delete a worktree, oldest first. *)
Definition deletions (hist : History) : list (Result DeleteWorktreeSuccess Error) :=
  omap (fun d =>
          match d with
          | done_call c x =>
              match c in Call X return X -> option (Result DeleteWorktreeSuccess Error) with
              | DeleteWorktree _ _ _ => fun r => Some r
              | _ => fun _ => None
              end x
          end) hist.

(** A collaborator's failure, by the text of its error: the configuration
    file is absent, the configuration file is malformed (it fails to parse
    or to validate), or any other collaborator failed. *)
Inductive Failure : Type :=
| AbsentConfig
| MalformedConfig (text : string)
| Failed (text : string).

Definition failureOfResult {T} (r : Result T Error) : option Failure :=
  match r with
  | err e => Some (Failed (message e))
  | ok _ => None
  end.

Definition failureOfThrown {T} (r : Thrown T) : option Failure :=
  match r with
  | thrown t => Some (Failed t)
  | returned _ => None
  end.

Definition failureOf (d : Done) : option Failure :=
  match d with
  | done_call c x =>
      match c in Call X return X -> option Failure with
      | ExistsSync _ => fun _ => None
      | BranchExists _ _ => failureOfResult
      | AttachWorktree _ _ _ => failureOfResult
      | GetGitRoot => failureOfThrown
      | GetCurrentWorktree _ => failureOfThrown
      | ValidateWorktreeExists _ _ => failureOfResult
      | DeleteWorktree _ _ _ => failureOfResult
      | SelectWorktreeWithFzf _ => failureOfResult
      | LoadConfig _ =>
          fun r =>
            match r with
            | err (ConfigNotFoundError _) => Some AbsentConfig
            | err e => Some (MalformedConfig (configMessage e))
            | ok _ => None
            end
      | SpawnProcess _ => failureOfResult
      | OutputLog _ | OutputWarn _ | OutputError _ => fun _ => None
      end x
  end.

(** The collaborator failures met during a run, oldest first. *)
Definition failures (hist : History) : list Failure := omap failureOf hist.

(** A request identifies the worktree [worktreeName] at [worktreePath] to
    the child when it carries an environment that holds the active-worktree
    marker, the name and the path, and every other variable of the caller's
    environment [callerEnv]. *)
Definition identifiesWorktree (callerEnv : gmap string string)
    (worktreeName worktreePath : string) (request : SpawnConfig) : Prop :=
  ∃ childEnv : gmap string string,
    env (options request) = Some childEnv
    ∧ childEnv !! "PHANTOM" = Some "1"
    ∧ childEnv !! "PHANTOM_NAME" = Some worktreeName
    ∧ childEnv !! "PHANTOM_PATH" = Some worktreePath
    ∧ ∀ key : string,
        key ≠ "PHANTOM" → key ≠ "PHANTOM_NAME" → key ≠ "PHANTOM_PATH" →
        childEnv !! key = callerEnv !! key.

(** ** Fixtures: a backend over a fixed state of the world *)

Record World : Type := {
  w_entries : list string;              (* paths with a file-system entry *)
  w_branches : list string;             (* branches git knows *)
  w_worktrees : list (string * string); (* worktree name, worktree path *)
  w_exit : list string -> Z;            (* exit code of a command line *)
  w_config : Result PhantomConfig ConfigError;
  w_root : string
}.

Definition worldBackend (w : World) : Backend :=
  fun _ X c =>
    match c in Call X return X with
    | ExistsSync p => bool_decide (p ∈ w_entries w)
    | BranchExists _ name => ok (bool_decide (name ∈ w_branches w))
    | AttachWorktree _ _ _ => ok tt
    | GetGitRoot => returned (w_root w)
    | GetCurrentWorktree _ => returned None
    | ValidateWorktreeExists _ name =>
        match list_find (fun e => e.1 = name) (w_worktrees w) with
        | Some (_, (_, p)) => ok {| path := p |}
        | None => err (WorktreeNotFoundError name)
        end
    | DeleteWorktree _ name _ =>
        ok {| dw_message := "Deleted worktree '" +:+ name +:+ "'" |}
    | SelectWorktreeWithFzf _ => ok None
    | LoadConfig _ => w_config w
    | SpawnProcess config =>
        ok {| exitCode := w_exit w (from_option (fun c => [c]) [] (command config)
                                      ++ args config) |}
    | OutputLog _ | OutputWarn _ | OutputError _ => tt
    end.

Definition fixtureValidateName (name : string) : Result unit Error :=
  if decide (name = "") then err (InvalidWorktreeNameError name) else ok tt.

Definition fixtureWorktreePath (gitRoot name : string) : string :=
  gitRoot +:+ "/.git/phantom/worktrees/" +:+ name.

Definition fixtureWorld : World :=
  {| w_entries := ["/repo/.git/phantom/worktrees/taken"];
     w_branches := ["main"; "feature-x"];
     w_worktrees := [("feature-x", "/repo/.git/phantom/worktrees/feature-x");
                     (".", "/repo/.git/phantom/worktrees")];
     w_exit := fun cmdline =>
                 match last cmdline with
                 | Some "false" => 1
                 | Some "exit 7" => 7
                 | _ => 0
                 end;
     w_config := err (ConfigNotFoundError "phantom.config.json not found");
     w_root := "/repo" |}.

Definition fixtureEnv : gmap string string :=
  {[ "SHELL" := "/bin/bash"; "HOME" := "/home/dev" ]}.

Definition fixtureExitCodes : ExitCodes :=
  {| success := 0; generalError := 1; notFound := 2; validationError := 3 |}.

Definition fixtureParseArgs (argv : list string) : Thrown ParsedArgs :=
  returned {| values := {| force := None; current := None; fzf := Some false |};
              positionals := argv |}.

(** ** Further observations on a history *)

(** The worktree resolutions asked for: git root, worktree name, answer. *)
Definition resolutions (hist : History)
  : list (string * string * Result WorktreeInfo Error) :=
  omap (fun d =>
          match d with
          | done_call c x =>
              match c in Call X
                    return X -> option (string * string * Result WorktreeInfo Error) with
              | ValidateWorktreeExists gitRoot name => fun r => Some (gitRoot, name, r)
              | _ => fun _ => None
              end x
          end) hist.

(** The deletions asked for: git root, worktree name, force flag. *)
Definition deleteRequests (hist : History) : list (string * string * bool) :=
  omap (fun d =>
          match d with
          | done_call c _ =>
              match c with
              | DeleteWorktree gitRoot name force => Some (gitRoot, name, force)
              | _ => None
              end
          end) hist.

(** The answers to "which worktree am I in". *)
Definition currents (hist : History) : list (Thrown (option string)) :=
  omap (fun d =>
          match d with
          | done_call c x =>
              match c in Call X return X -> option (Thrown (option string)) with
              | GetCurrentWorktree _ => fun r => Some r
              | _ => fun _ => None
              end x
          end) hist.

(** The answers of the interactive selection. *)
Definition selections (hist : History)
  : list (Result (option SelectedWorktree) Error) :=
  omap (fun d =>
          match d with
          | done_call c x =>
              match c in Call X
                    return X -> option (Result (option SelectedWorktree) Error) with
              | SelectWorktreeWithFzf _ => fun r => Some r
              | _ => fun _ => None
              end x
          end) hist.

(** The configuration loads asked for and the texts logged. *)
Definition configLoads (hist : History) : list string :=
  omap (fun d =>
          match d with
          | done_call c _ =>
              match c with
              | LoadConfig gitRoot => Some gitRoot
              | _ => None
              end
          end) hist.

Definition logs (hist : History) : list string :=
  omap (fun d =>
          match d with
          | done_call c _ =>
              match c with
              | OutputLog text => Some text
              | _ => None
              end
          end) hist.

(** Backends that answer one kind of call in a fixed way and leave the
    rest to another backend. *)
Definition withDeletion (answer : string -> Result DeleteWorktreeSuccess Error)
    (h : Backend) : Backend :=
  fun hist X c =>
    match c in Call X return X with
    | DeleteWorktree _ name _ => answer name
    | other => h hist _ other
    end.

Definition withAttach (answer : Result unit Error) (h : Backend) : Backend :=
  fun hist X c =>
    match c in Call X return X with
    | AttachWorktree _ _ _ => answer
    | other => h hist _ other
    end.

Definition withCurrent (answer : Thrown (option string)) (h : Backend) : Backend :=
  fun hist X c =>
    match c in Call X return X with
    | GetCurrentWorktree _ => answer
    | other => h hist _ other
    end.

Definition withConfig (answer : Result PhantomConfig ConfigError) (h : Backend)
  : Backend :=
  fun hist X c =>
    match c in Call X return X with
    | LoadConfig _ => answer
    | other => h hist _ other
    end.

Definition fixtureCurrentArgs (argv : list string) : Thrown ParsedArgs :=
  returned {| values := {| force := None; current := Some true; fzf := Some false |};
              positionals := argv |}.

Definition fixtureFzfArgs (argv : list string) : Thrown ParsedArgs :=
  returned {| values := {| force := Some true; current := None; fzf := Some true |};
              positionals := argv |}.

(** ** The [delete] command handler of the [cli] package

    [packages/cli/src/handlers/delete.ts]: the same option checks, the same
    choice of the worktree name (the lines are those of
    [selectWorktreeName]) and the same exit codes, with no configuration
    and no post-delete commands. *)

Module CliPackage.
Section Handlers.

Variable exitCodes : ExitCodes.
Variable parseArgs : list string -> Thrown ParsedArgs.

Definition deleteHandler (argv : list string) : Prog (Completion unit) :=
  match parseArgs argv with
  | thrown t => mret (Throw t)
  | returned parsed =>
      let pos := positionals parsed in
      let deleteCurrent := default false (current (values parsed)) in
      let useFzf := default false (fzf (values parsed)) in
      let given := bool_decide (length pos ≠ 0%nat) in
      if negb given && negb deleteCurrent && negb useFzf then
        exitWithError "Please provide a worktree name to delete, use --current to delete the current worktree, or use --fzf for interactive selection"
                      (validationError exitCodes)
      else if (given || useFzf) && deleteCurrent then
        exitWithError "Cannot specify --current with a worktree name or --fzf option"
                      (validationError exitCodes)
      else if given && useFzf then
        exitWithError "Cannot specify both a worktree name and --fzf option"
                      (validationError exitCodes)
      else
        let forceDelete := default false (force (values parsed)) in
        tryCatch
          (root ← await GetGitRoot;
           match root with
           | thrown t => mret (Throw t)
           | returned gitRoot =>
               andThen (selectWorktreeName exitCodes gitRoot deleteCurrent useFzf pos)
                 (fun worktreeName =>
                    result ← await (DeleteWorktree gitRoot worktreeName forceDelete);
                    match result with
                    | err e =>
                        let code :=
                          if instanceofWorktreeNotFoundError e
                          then validationError exitCodes
                          else if instanceofWorktreeError e
                                  && includes (message e) "uncommitted changes"
                          then validationError exitCodes
                          else generalError exitCodes in
                        exitWithError (message e) code
                    | ok v =>
                        await (OutputLog (dw_message v));;
                        exitWithSuccess
                    end)
           end)
          (fun t => exitWithError t (generalError exitCodes))
  end.

End Handlers.
End CliPackage.

(** Calls that exist only for the configuration: loading it and warning
    about it. *)
Definition isConfigTraffic (d : Done) : bool :=
  match d with
  | done_call c _ =>
      match c with
      | LoadConfig _ | OutputWarn _ => true
      | _ => false
      end
  end.

(** Whether a loaded configuration asks for post-delete commands. *)
Definition declaresPostDelete (configResult : Result PhantomConfig ConfigError)
  : bool :=
  match configResult with
  | ok cfg => bool_decide (is_Some (postDelete cfg ≫= commands))
  | err _ => false
  end.

(** ** The [list], [where] and [shell] command handlers

    [packages/cli/src/handlers/{list,where,shell}.ts].  These handlers use
    collaborators beyond those of [Call]; [Ask] adds them, and a handler is
    a [Script] over [Ask], run like a [Prog]. *)

Module Handlers.

(** [createContext] resolves the directory that holds the worktrees. *)
Record Context : Type := {
  ctx_gitRoot : string;
  worktreesDirectory : string
}.

(** A worktree as [listWorktrees] reports it; [wt_branch] is [None] for a
    branch that is null or undefined. *)
Record Worktree : Type := {
  wt_name : string;
  wt_branch : option string;
  wt_isClean : bool
}.

Record ListWorktreesSuccess : Type := {
  worktrees : list Worktree;
  lw_message : option string
}.

Inductive TmuxDirection : Type := newWindow | vertical | horizontal.

Record TmuxOptions : Type := {
  direction : TmuxDirection;
  tmux_command : string;
  tmux_cwd : string;
  tmux_env : gmap string string;
  windowName : option string
}.

Inductive Ask : Type -> Type :=
| Base {X : Type} (c : Call X) : Ask X
| CreateContext (gitRoot : string) : Ask (Thrown Context)
| ListWorktrees (gitRoot directory : string) : Ask (Result ListWorktreesSuccess Error)
| SelectWorktreeWithFzfIn (gitRoot directory : string)
    : Ask (Result (option SelectedWorktree) Error)
| WhereWorktree (gitRoot name : string) : Ask (Result WorktreeInfo Error)
| IsInsideTmux : Ask bool
| ExecuteTmuxCommand (request : TmuxOptions) : Ask (Result unit Error)
| ShellInWorktreeCore (gitRoot name : string) : Ask (Result SpawnSuccess Error).

Inductive Asked : Type :=
| asked {X : Type} (a : Ask X) (x : X).

Inductive Script (R : Type) : Type :=
| Finish (r : R)
| Then {X : Type} (a : Ask X) (k : X -> Script R).

Arguments Finish {R} r.
Arguments Then {R X} a k.

Fixpoint chain {A B} (p : Script A) (f : A -> Script B) : Script B :=
  match p with
  | Finish a => f a
  | Then a k => Then a (fun x => chain (k x) f)
  end.

Definition ask {X} (a : Ask X) : Script X := Then a Finish.

#[global] Instance Script_ret : MRet Script := fun _ r => Finish r.
#[global] Instance Script_bind : MBind Script := fun _ _ f p => chain p f.

Definition Server : Type := list Asked -> forall X, Ask X -> X.

Fixpoint runScript {R} (h : Server) (hist : list Asked) (p : Script R)
  : R * list Asked :=
  match p with
  | Finish r => (r, hist)
  | Then a k =>
      let x := h hist _ a in
      runScript h (hist ++ [asked a x]) (k x)
  end.

(** How a handler's code path ends: [exitWithError], [exitWithSuccess],
    [process.exit(code)], an exception on its way out, or a plain return. *)
Inductive Ending : Type :=
| ExitError (text : string) (code : Z)
| ExitSuccess
| ProcessExit (code : Z)
| Threw (text : string)
| Returned.

(** [try { body } catch (error) { handler(text of error) }] *)
Definition catching (body : Script Ending) (handler : string -> Script Ending)
  : Script Ending :=
  r ← body;
  match r with
  | Threw t => handler t
  | _ => mret r
  end.

(** [for (const x of items) { body(x) }] for a body that always completes. *)
Fixpoint forEach {A} (items : list A) (body : A -> Script unit) : Script unit :=
  match items with
  | [] => mret tt
  | x :: rest => body x;; forEach rest body
  end.

Definition log (text : string) : Script unit := ask (Base (OutputLog text)).

(** [e.exitCode || fallback]: a missing exit code and the exit code 0 are
    both falsy. *)
Definition exitCodeOrTruthy (e : Error) (fallback : Z) : Z :=
  match e with
  | ExternalError _ _ (Some c) => if decide (c = 0) then fallback else c
  | _ => fallback
  end.

Fixpoint spaces (n : nat) : string :=
  match n with
  | O => ""
  | S m => String (Ascii.ascii_of_nat 32) (spaces m)
  end.

(** A JavaScript string is held as its UTF-8 encoding (a lone surrogate as
    the three bytes of its code point).  [s.length] counts UTF-16 code
    units: one for a code point below U+10000 and two for one above, that is
    one for each lead byte below 0xF0, two for a lead byte from 0xF0 on, and
    none for a continuation byte (0x80 to 0xBF). *)
Definition codeUnits (c : Ascii.ascii) : nat :=
  let byte := Ascii.nat_of_ascii c in
  if (byte <? 128)%nat then 1%nat
  else if (byte <? 192)%nat then 0%nat
  else if (byte <? 240)%nat then 1%nat
  else 2%nat.

Fixpoint jsLength (s : string) : nat :=
  match s with
  | EmptyString => 0%nat
  | String c rest => (codeUnits c + jsLength rest)%nat
  end.

(** [s.padEnd(targetLength)]: fills with spaces up to [targetLength] code
    units. *)
Definition padEnd (s : string) (targetLength : nat) : string :=
  s +:+ spaces (targetLength - jsLength s).

(** [Math.max(...lengths)] for a list that is not empty. *)
Definition maxOf (lengths : list nat) : nat := foldr Nat.max 0%nat lengths.

(** The line [listHandler] prints for one worktree in its table. *)
Definition tableLine (maxNameLength : nat) (worktree : Worktree) : string :=
  let paddedName := padEnd (wt_name worktree) (maxNameLength + 2) in
  let branchInfo :=
    match wt_branch worktree with
    | Some b => if decide (b = "") then "" else "(" +:+ b +:+ ")"
    | None => ""
    end in
  let status := if negb (wt_isClean worktree) then " [dirty]" else "" in
  paddedName +:+ " " +:+ branchInfo +:+ status.

Record ListValues : Type := { lv_fzf : bool; lv_names : bool }.

Record WhereArgs : Type := {
  wh_fzf : option bool;
  wh_positionals : list string
}.

Record ShellValues : Type := {
  sv_fzf : option bool;
  sv_tmux : option bool;
  sv_tmux_vertical : option bool;
  sv_tmux_v : option bool;
  sv_tmux_horizontal : option bool;
  sv_tmux_h : option bool
}.

Record ShellArgs : Type := {
  sh_values : ShellValues;
  sh_positionals : list string
}.

(** An optional flag is truthy when it is there and set. *)
Definition truthy (flag : option bool) : bool := default false flag.

Section WithEnvironment.

Variable exitCodes : ExitCodes.
Variable processEnv : gmap string string.
Variable parseListArgs : list string -> Thrown ListValues.
Variable parseWhereArgs : list string -> Thrown WhereArgs.
Variable parseShellArgs : list string -> Thrown ShellArgs.

Definition exitError (text : string) (code : Z) : Script Ending :=
  mret (ExitError text code).

Definition listHandler (argv : list string) : Script Ending :=
  match parseListArgs argv with
  | thrown t => mret (Threw t)
  | returned values =>
      catching
        (root ← ask (Base GetGitRoot);
         match root with
         | thrown t => mret (Threw t)
         | returned gitRoot =>
             created ← ask (CreateContext gitRoot);
             match created with
             | thrown t => mret (Threw t)
             | returned context =>
                 if lv_fzf values then
                   selectResult ← ask (SelectWorktreeWithFzfIn
                                         (ctx_gitRoot context)
                                         (worktreesDirectory context));
                   match selectResult with
                   | err e => exitError (message e) (generalError exitCodes)
                   | ok None => mret (ProcessExit (success exitCodes))
                   | ok (Some w) =>
                       log (sel_name w);;
                       mret (ProcessExit (success exitCodes))
                   end
                 else
                   result ← ask (ListWorktrees (ctx_gitRoot context)
                                               (worktreesDirectory context));
                   match result with
                   | err _ =>
                       exitError "Failed to list worktrees" (generalError exitCodes)
                   | ok listed =>
                       let rows := worktrees listed in
                       if bool_decide (length rows = 0%nat) then
                         (if negb (lv_names values) then
                            log (match lw_message listed with
                                 | Some m => if decide (m = "")
                                             then "No worktrees found." else m
                                 | None => "No worktrees found."
                                 end)
                          else mret tt);;
                         mret (ProcessExit (success exitCodes))
                       else
                         (if lv_names values then
                            forEach rows (fun worktree => log (wt_name worktree))
                          else
                            let maxNameLength :=
                              maxOf (map (fun wt => jsLength (wt_name wt)) rows) in
                            forEach rows
                              (fun worktree => log (tableLine maxNameLength worktree)));;
                         mret (ProcessExit (success exitCodes))
                   end
             end
         end)
        (fun t => exitError t (generalError exitCodes))
  end.

Definition whereHandler (argv : list string) : Script Ending :=
  match parseWhereArgs argv with
  | thrown t => mret (Threw t)
  | returned parsed =>
      let pos := wh_positionals parsed in
      let useFzf := default false (wh_fzf parsed) in
      let given := bool_decide (length pos ≠ 0%nat) in
      if negb given && negb useFzf then
        exitError "Usage: phantom where <worktree-name> or phantom where --fzf"
                  (validationError exitCodes)
      else if given && useFzf then
        exitError "Cannot specify both a worktree name and --fzf option"
                  (validationError exitCodes)
      else
        root ← ask (Base GetGitRoot);
        match root with
        | thrown t => exitError t (generalError exitCodes)
        | returned gitRoot =>
            chosen ←
              (if useFzf then
                 selectResult ← ask (Base (SelectWorktreeWithFzf gitRoot));
                 match selectResult with
                 | err e => mret (inl (ExitError (message e) (generalError exitCodes)))
                 | ok None => mret (inl ExitSuccess)
                 | ok (Some w) => mret (inr (sel_name w))
                 end
               else mret (inr (default "" (head pos))));
            match chosen with
            | inl ending => mret ending
            | inr worktreeName =>
                result ← ask (WhereWorktree gitRoot worktreeName);
                match result with
                | err e => exitError (message e) (notFound exitCodes)
                | ok found =>
                    log (path found);;
                    mret ExitSuccess
                end
            end
        end
  end.

Definition shellHandler (argv : list string) : Script Ending :=
  match parseShellArgs argv with
  | thrown t => mret (Threw t)
  | returned parsed =>
      let values := sh_values parsed in
      let pos := sh_positionals parsed in
      let useFzf := default false (sv_fzf values) in
      let tmuxOption :=
        truthy (sv_tmux values) || truthy (sv_tmux_vertical values)
        || truthy (sv_tmux_v values) || truthy (sv_tmux_horizontal values)
        || truthy (sv_tmux_h values) in
      let tmuxDirection : option TmuxDirection :=
        if truthy (sv_tmux values) then Some newWindow
        else if truthy (sv_tmux_vertical values) || truthy (sv_tmux_v values)
        then Some vertical
        else if truthy (sv_tmux_horizontal values) || truthy (sv_tmux_h values)
        then Some horizontal
        else None in
      let given := bool_decide (length pos ≠ 0%nat) in
      if negb given && negb useFzf then
        exitError "Usage: phantom shell <worktree-name> or phantom shell --fzf"
                  (validationError exitCodes)
      else if given && useFzf then
        exitError "Cannot specify both a worktree name and --fzf option"
                  (validationError exitCodes)
      else
        catching
          (root ← ask (Base GetGitRoot);
           match root with
           | thrown t => mret (Threw t)
           | returned gitRoot =>
               refused ←
                 (if tmuxOption then
                    inside ← ask IsInsideTmux;
                    if negb inside then
                      mret (Some (ExitError
                                    "The --tmux option can only be used inside a tmux session"
                                    (validationError exitCodes)))
                    else mret None
                  else mret None);
               match refused with
               | Some ending => mret ending
               | None =>
                   chosen ←
                     (if useFzf then
                        selectResult ← ask (Base (SelectWorktreeWithFzf gitRoot));
                        match selectResult with
                        | err e =>
                            mret (inl (ExitError (message e) (generalError exitCodes)))
                        | ok None => mret (inl ExitSuccess)
                        | ok (Some w) => mret (inr (sel_name w))
                        end
                      else mret (inr (default "" (head pos))));
                   match chosen with
                   | inl ending => mret ending
                   | inr worktreeName =>
                       validation ←
                         ask (Base (ValidateWorktreeExists gitRoot worktreeName));
                       match validation with
                       | err e => exitError (message e) (generalError exitCodes)
                       | ok info =>
                           match tmuxDirection with
                           | Some dir =>
                               log ("Opening worktree '" +:+ worktreeName
                                    +:+ "' in tmux "
                                    +:+ (match dir with
                                         | newWindow => "window"
                                         | _ => "pane"
                                         end)
                                    +:+ "...");;
                               let shell := shellOf processEnv in
                               tmuxResult ←
                                 ask (ExecuteTmuxCommand
                                        {| direction := dir;
                                           tmux_command := shell;
                                           tmux_cwd := path info;
                                           tmux_env :=
                                             getPhantomEnv worktreeName (path info);
                                           windowName :=
                                             match dir with
                                             | newWindow => Some worktreeName
                                             | _ => None
                                             end |});
                               match tmuxResult with
                               | err e =>
                                   ask (Base (OutputError (message e)));;
                                   exitError "" (exitCodeOr e (generalError exitCodes))
                               | ok _ => mret ExitSuccess
                               end
                           | None =>
                               log ("Entering worktree '" +:+ worktreeName
                                    +:+ "' at " +:+ path info);;
                               log ("Type 'exit' to return to your original directory"
                                    +:+ newline);;
                               result ← ask (ShellInWorktreeCore gitRoot worktreeName);
                               match result with
                               | err e =>
                                   let code :=
                                     if instanceofWorktreeNotFoundError e
                                     then notFound exitCodes
                                     else exitCodeOrTruthy e (generalError exitCodes) in
                                   exitError (message e) code
                               | ok v => mret (ProcessExit (exitCode v))
                               end
                           end
                       end
                   end
               end
           end)
          (fun t => exitError t (generalError exitCodes))
  end.

End WithEnvironment.

(** *** Observations on what a handler asked *)

Definition loggedOf (d : Asked) : option string :=
  match d with
  | asked a _ =>
      match a with
      | Base c => match c with OutputLog text => Some text | _ => None end
      | _ => None
      end
  end.

(** The texts logged, oldest first. *)
Definition logged (hist : list Asked) : list string := omap loggedOf hist.

(** The requests to the terminal multiplexer, oldest first. *)
Definition tmuxRequests (hist : list Asked) : list TmuxOptions :=
  omap (fun d =>
          match d with
          | asked a _ =>
              match a with
              | ExecuteTmuxCommand request => Some request
              | _ => None
              end
          end) hist.

(** The worktrees a shell was started in: git root and name. *)
Definition shellStarts (hist : list Asked) : list (string * string) :=
  omap (fun d =>
          match d with
          | asked a _ =>
              match a with
              | ShellInWorktreeCore gitRoot name => Some (gitRoot, name)
              | _ => None
              end
          end) hist.

(** The answers to "is this inside tmux". *)
Definition tmuxChecks (hist : list Asked) : list bool :=
  omap (fun d =>
          match d with
          | asked a x =>
              match a in Ask X return X -> option bool with
              | IsInsideTmux => fun b => Some b
              | _ => fun _ => None
              end x
          end) hist.

(** The answers of the worktree validation. *)
Definition validations (hist : list Asked) : list (Result WorktreeInfo Error) :=
  omap (fun d =>
          match d with
          | asked a x =>
              match a in Ask X return X -> option (Result WorktreeInfo Error) with
              | Base c =>
                  match c in Call X return X -> option (Result WorktreeInfo Error) with
                  | ValidateWorktreeExists _ _ => fun r => Some r
                  | _ => fun _ => None
                  end
              | _ => fun _ => None
              end x
          end) hist.

(** The answers of the shell started in a worktree. *)
Definition shellResults (hist : list Asked) : list (Result SpawnSuccess Error) :=
  omap (fun d =>
          match d with
          | asked a x =>
              match a in Ask X return X -> option (Result SpawnSuccess Error) with
              | ShellInWorktreeCore _ _ => fun r => Some r
              | _ => fun _ => None
              end x
          end) hist.



(** The answers of [whereWorktree] and of [listWorktrees]. *)
Definition whereResults (hist : list Asked) : list (Result WorktreeInfo Error) :=
  omap (fun d =>
          match d with
          | asked a x =>
              match a in Ask X return X -> option (Result WorktreeInfo Error) with
              | WhereWorktree _ _ => fun r => Some r
              | _ => fun _ => None
              end x
          end) hist.

(** A server over the fixture world: the list of worktrees is as given. *)
Definition fixtureServer (listed : Result ListWorktreesSuccess Error)
    (insideTmux : bool) : Server :=
  fun _ X a =>
    match a in Ask X return X with
    | Base c => worldBackend fixtureWorld [] _ c
    | CreateContext gitRoot =>
        returned {| ctx_gitRoot := gitRoot;
                    worktreesDirectory := gitRoot +:+ "/.git/phantom/worktrees" |}
    | ListWorktrees _ _ => listed
    | SelectWorktreeWithFzfIn _ _ => ok None
    | WhereWorktree gitRoot name =>
        worldBackend fixtureWorld [] _ (ValidateWorktreeExists gitRoot name)
    | IsInsideTmux => insideTmux
    | ExecuteTmuxCommand _ => ok tt
    | ShellInWorktreeCore _ _ => ok {| exitCode := 3 |}
    end.

Definition fixtureListing : ListWorktreesSuccess :=
  {| worktrees := [ {| wt_name := "feature-x"; wt_branch := Some "feature-x";
                       wt_isClean := true |};
                    {| wt_name := "fix"; wt_branch := None; wt_isClean := false |} ];
     lw_message := None |}.

Definition fixtureAccentedListing : ListWorktreesSuccess :=
  {| worktrees := [ {| wt_name := "café"; wt_branch := Some "dev";
                       wt_isClean := true |};
                    {| wt_name := "abcd"; wt_branch := Some "dev";
                       wt_isClean := false |} ];
     lw_message := None |}.

Definition fixtureListArgs (names : bool) (argv : list string) : Thrown ListValues :=
  returned {| lv_fzf := false; lv_names := names |}.

Definition fixtureWhereArgs (argv : list string) : Thrown WhereArgs :=
  returned {| wh_fzf := None; wh_positionals := argv |}.

Definition fixtureShellArgs (tmux split : option bool) (argv : list string)
  : Thrown ShellArgs :=
  returned {| sh_values := {| sv_fzf := None; sv_tmux := tmux;
                              sv_tmux_vertical := None; sv_tmux_v := split;
                              sv_tmux_horizontal := None; sv_tmux_h := None |};
              sh_positionals := argv |}.

Definition listResults (hist : list Asked)
  : list (Result ListWorktreesSuccess Error) :=
  omap (fun d =>
          match d with
          | asked a x =>
              match a in Ask X return X -> option (Result ListWorktreesSuccess Error) with
              | ListWorktrees _ _ => fun r => Some r
              | _ => fun _ => None
              end x
          end) hist.

End Handlers.

(** * Theorems *)

Lemma run_bind {A B} (h : Backend) (p : Prog A) (f : A -> Prog B) hist :
  run h hist (p ≫= f) = let '(a, hist1) := run h hist p in run h hist1 (f a).
Proof.
  revert hist. induction p as [a | X c k IH]; intros hist; [reflexivity |].
  cbn. apply IH.
Qed.

Lemma run_await {X} (h : Backend) (c : Call X) hist :
  run h hist (await c) = (h hist X c, hist ++ [answered h hist c]).
Proof. reflexivity. Qed.

Lemma run_mret {A} (h : Backend) (a : A) hist : run h hist (mret a) = (a, hist).
Proof. reflexivity. Qed.

(** Running a program only adds to the history. *)
Lemma run_extends {A} (h : Backend) (p : Prog A) hist :
  ∃ t, (run h hist p).2 = hist ++ t.
Proof.
  revert hist. induction p as [a | X c k IH]; intros hist; cbn.
  - exists []. by rewrite app_nil_r.
  - destruct (IH (h hist X c) (hist ++ [done_call c (h hist X c)])) as [t Ht].
    exists (done_call c (h hist X c) :: t). by rewrite Ht, <- app_assoc.
Qed.

(** ** Attach *)

Section AttachFacts.

Variable validateWorktreeName : string -> Result unit Error.
Variable getWorktreePath : string -> string -> string.
Variable h : Backend.
Variable hist : History.
Variables gitRoot name : string.

Let target := getWorktreePath gitRoot name.
Let attach :=
  run h hist (attachWorktreeCore validateWorktreeName getWorktreePath gitRoot name).
Let hist1 := hist ++ [answered h hist (ExistsSync target)].
Let hist2 := hist1 ++ [answered h hist1 (BranchExists gitRoot name)].
Let hist3 := hist2 ++ [answered h hist2 (AttachWorktree gitRoot target name)].

Lemma attach_invalid e :
  validateWorktreeName name = err e -> attach = (err e, hist).
Proof.
  intros Hv. subst attach. unfold attachWorktreeCore. by rewrite Hv.
Qed.

Lemma attach_present :
  isOk (validateWorktreeName name) ->
  h hist _ (ExistsSync target) = true ->
  attach = (err (WorktreeAlreadyExistsError name), hist1).
Proof.
  intros Hv Hp. subst attach hist1. unfold attachWorktreeCore, answered.
  destruct (validateWorktreeName name); [| done].
  cbn. fold target. by rewrite Hp.
Qed.

Lemma attach_branch_error e :
  isOk (validateWorktreeName name) ->
  h hist _ (ExistsSync target) = false ->
  h hist1 _ (BranchExists gitRoot name) = err e ->
  attach = (err e, hist2).
Proof.
  intros Hv Hp Hb. subst attach hist2. unfold attachWorktreeCore, answered.
  destruct (validateWorktreeName name); [| done].
  cbn. fold target. rewrite Hp. cbn. fold target. unfold hist1, answered in *.
  rewrite Hp in *. by rewrite Hb.
Qed.

Lemma attach_branch_missing :
  isOk (validateWorktreeName name) ->
  h hist _ (ExistsSync target) = false ->
  h hist1 _ (BranchExists gitRoot name) = ok false ->
  attach = (err (BranchNotFoundError name), hist2).
Proof.
  intros Hv Hp Hb. subst attach hist2. unfold attachWorktreeCore, answered.
  destruct (validateWorktreeName name); [| done].
  cbn. fold target. rewrite Hp. cbn. fold target. unfold hist1, answered in *.
  rewrite Hp in *. by rewrite Hb.
Qed.

Lemma attach_delegates :
  isOk (validateWorktreeName name) ->
  h hist _ (ExistsSync target) = false ->
  h hist1 _ (BranchExists gitRoot name) = ok true ->
  attach =
    (match h hist2 _ (AttachWorktree gitRoot target name) with
     | err e => err e
     | ok _ => ok target
     end, hist3).
Proof.
  intros Hv Hp Hb. subst attach hist3 hist2.
  unfold attachWorktreeCore, answered.
  destruct (validateWorktreeName name); [| done].
  cbn. fold target. rewrite Hp. cbn. fold target. unfold hist1, answered in *.
  rewrite Hp in *. rewrite Hb. cbn. fold target.
  by destruct (h _ _ (AttachWorktree gitRoot target name)).
Qed.

End AttachFacts.

(** C1.  [attachWorktreeCore] checks in a fixed order and returns the first
    failure: the error of the name validation, with no call made at all;
    else [WorktreeAlreadyExistsError] when the computed path exists; else
    the error of the branch query if the query itself fails, and
    [BranchNotFoundError] when it reports that the branch does not exist;
    else it asks the backend to attach, hands back the backend's error
    unchanged, and on success returns the computed path.  The history
    after each outcome lists exactly the calls made up to that point. *)
Theorem attach_checks_in_order
    (validateWorktreeName : string -> Result unit Error)
    (getWorktreePath : string -> string -> string)
    (h : Backend) (hist : History) (gitRoot name : string) :
  let target := getWorktreePath gitRoot name in
  let attach :=
    run h hist (attachWorktreeCore validateWorktreeName getWorktreePath gitRoot name) in
  let hist1 := hist ++ [answered h hist (ExistsSync target)] in
  let hist2 := hist1 ++ [answered h hist1 (BranchExists gitRoot name)] in
  let hist3 := hist2 ++ [answered h hist2 (AttachWorktree gitRoot target name)] in
  (∀ e, validateWorktreeName name = err e → attach = (err e, hist))
  ∧ (isOk (validateWorktreeName name) →
     (h hist _ (ExistsSync target) = true →
      attach = (err (WorktreeAlreadyExistsError name), hist1))
     ∧ (h hist _ (ExistsSync target) = false →
        (∀ e, h hist1 _ (BranchExists gitRoot name) = err e →
              attach = (err e, hist2))
        ∧ (h hist1 _ (BranchExists gitRoot name) = ok false →
           attach = (err (BranchNotFoundError name), hist2))
        ∧ (h hist1 _ (BranchExists gitRoot name) = ok true →
           (∀ e, h hist2 _ (AttachWorktree gitRoot target name) = err e →
                 attach = (err e, hist3))
           ∧ (isOk (h hist2 _ (AttachWorktree gitRoot target name)) →
              attach = (ok target, hist3))))).
Proof.
  intros target attach hist1 hist2 hist3. split.
  - intros e. apply attach_invalid.
  - intros Hv. split; [by apply attach_present |].
    intros Hp. split; [| split].
    + intros e. by apply attach_branch_error.
    + by apply attach_branch_missing.
    + intros Hb.
      pose proof (attach_delegates validateWorktreeName getWorktreePath
                    h hist gitRoot name Hv Hp Hb) as Hd.
      cbv zeta in Hd. fold target hist1 hist2 hist3 attach in Hd.
      split.
      * intros e He. by rewrite Hd, He.
      * intros Hok. rewrite Hd.
        by destruct (h hist2 _ (AttachWorktree gitRoot target name)).
Qed.

(** C1, at work: on a repository where the branch [feature-x] exists and
    nothing sits at the computed path, the attach succeeds with that path
    after asking, in this order, the file system, the branch query and the
    attach operation. *)
Lemma attach_checks_in_order_witness :
  run (worldBackend fixtureWorld) []
      (attachWorktreeCore fixtureValidateName fixtureWorktreePath "/repo" "feature-x")
  = (ok "/repo/.git/phantom/worktrees/feature-x",
     [done_call (ExistsSync "/repo/.git/phantom/worktrees/feature-x") false;
      done_call (BranchExists "/repo" "feature-x") (ok true);
      done_call (AttachWorktree "/repo" "/repo/.git/phantom/worktrees/feature-x"
                                "feature-x") (ok tt)]).
Proof.
  pose proof (attach_checks_in_order fixtureValidateName fixtureWorktreePath
                (worldBackend fixtureWorld) [] "/repo" "feature-x") as H.
  cbv zeta in H.
  destruct H as [_ H].
  destruct (H I) as [_ H1].
  destruct (H1 eq_refl) as (_ & _ & H2).
  destruct (H2 eq_refl) as [_ H3].
  exact (H3 I).
Defined.

(** C3.  When the name is valid, nothing sits at the computed path and the
    backend reports that the branch does not exist, the attach fails with
    [BranchNotFoundError]; the only calls made are the existence test and
    the branch query, so the attach operation is never invoked and nothing
    that could change the file system happens. *)
Theorem attach_missing_branch_mutates_nothing
    (validateWorktreeName : string -> Result unit Error)
    (getWorktreePath : string -> string -> string)
    (h : Backend) (hist : History) (gitRoot name : string) :
  let target := getWorktreePath gitRoot name in
  let hist1 := hist ++ [done_call (ExistsSync target) false] in
  isOk (validateWorktreeName name) →
  h hist _ (ExistsSync target) = false →
  h hist1 _ (BranchExists gitRoot name) = ok false →
  ∃ made,
    run h hist (attachWorktreeCore validateWorktreeName getWorktreePath gitRoot name)
    = (err (BranchNotFoundError name), hist ++ made)
    ∧ made = [done_call (ExistsSync target) false;
              done_call (BranchExists gitRoot name) (ok false)]
    ∧ Forall (fun d => isMutation d = false) made.
Proof.
  intros target hist1 Hv Hp Hb.
  eexists. split; [| split; [reflexivity |]].
  - pose proof (attach_branch_missing validateWorktreeName getWorktreePath
                  h hist gitRoot name Hv Hp) as H.
    cbv zeta in H. unfold answered in H. fold target in H.
    rewrite Hp in H. fold hist1 in H. specialize (H Hb).
    rewrite H, Hb. subst hist1. by rewrite <- app_assoc.
  - by repeat constructor.
Qed.

Lemma attach_missing_branch_mutates_nothing_witness :
  ∃ made,
    run (worldBackend fixtureWorld) []
        (attachWorktreeCore fixtureValidateName fixtureWorktreePath "/repo" "topic")
    = (err (BranchNotFoundError "topic"), [] ++ made)
    ∧ made = [done_call (ExistsSync "/repo/.git/phantom/worktrees/topic") false;
              done_call (BranchExists "/repo" "topic") (ok false)]
    ∧ Forall (fun d => isMutation d = false) made.
Proof.
  apply (attach_missing_branch_mutates_nothing fixtureValidateName
           fixtureWorktreePath (worldBackend fixtureWorld) [] "/repo" "topic");
    reflexivity.
Defined.

(** C10.  For a valid name, whatever sits at the computed path blocks the
    attach: when the existence test answers yes the result is
    [WorktreeAlreadyExistsError] and the existence test is the only call
    made, so the git backend is asked neither about the branch nor to
    attach, and whether git knows a worktree there plays no part. *)
Theorem attach_existing_path_skips_git
    (validateWorktreeName : string -> Result unit Error)
    (getWorktreePath : string -> string -> string)
    (h : Backend) (hist : History) (gitRoot name : string) :
  let target := getWorktreePath gitRoot name in
  isOk (validateWorktreeName name) →
  h hist _ (ExistsSync target) = true →
  ∃ made,
    run h hist (attachWorktreeCore validateWorktreeName getWorktreePath gitRoot name)
    = (err (WorktreeAlreadyExistsError name), hist ++ made)
    ∧ made = [done_call (ExistsSync target) true]
    ∧ Forall (fun d => isGitCall d = false) made.
Proof.
  intros target Hv Hp.
  eexists. split; [| split; [reflexivity |]].
  - pose proof (attach_present validateWorktreeName getWorktreePath
                  h hist gitRoot name Hv Hp) as H.
    cbv zeta in H. unfold answered in H. fold target in H.
    by rewrite Hp in H.
  - by repeat constructor.
Qed.

(** The fixture has an entry at the path of [taken] and no worktree of that
    name: an orphaned directory. *)
Lemma attach_existing_path_skips_git_witness :
  ∃ made,
    run (worldBackend fixtureWorld) []
        (attachWorktreeCore fixtureValidateName fixtureWorktreePath "/repo" "taken")
    = (err (WorktreeAlreadyExistsError "taken"), [] ++ made)
    ∧ made = [done_call (ExistsSync "/repo/.git/phantom/worktrees/taken") true]
    ∧ Forall (fun d => isGitCall d = false) made.
Proof.
  apply (attach_existing_path_skips_git fixtureValidateName
           fixtureWorktreePath (worldBackend fixtureWorld) [] "/repo" "taken");
    reflexivity.
Defined.

(** ** Execution bridge *)

(** The request [execInWorktree] builds once the worktree is resolved. *)
Lemma exec_resolved (h : Backend) hist gitRoot worktreeName cmdline opts info :
  h hist _ (ValidateWorktreeExists gitRoot worktreeName) = ok info ->
  let request :=
    {| command := head cmdline;
       args := tail cmdline;
       options := {| cwd := path info;
                     env := None;
                     stdio := Some (match interactive opts with
                                    | Some true => StdioAll inherit
                                    | _ => StdioEach ignore inherit inherit
                                    end) |} |} in
  let hist1 := hist ++ [done_call (ValidateWorktreeExists gitRoot worktreeName)
                                  (ok info)] in
  run h hist (execInWorktree gitRoot worktreeName cmdline opts)
  = (h hist1 _ (SpawnProcess request),
     hist1 ++ [answered h hist1 (SpawnProcess request)]).
Proof.
  intros Hv request hist1. unfold execInWorktree.
  rewrite run_bind, run_await. unfold answered. rewrite Hv. reflexivity.
Qed.

Lemma exec_unresolved (h : Backend) hist gitRoot worktreeName cmdline opts e :
  h hist _ (ValidateWorktreeExists gitRoot worktreeName) = err e ->
  run h hist (execInWorktree gitRoot worktreeName cmdline opts)
  = (err e, hist ++ [done_call (ValidateWorktreeExists gitRoot worktreeName)
                               (err e)]).
Proof.
  intros Hv. unfold execInWorktree.
  rewrite run_bind, run_await. unfold answered. rewrite Hv. reflexivity.
Qed.

Lemma shell_resolved processEnv (h : Backend) hist gitRoot dir worktreeName info :
  h hist _ (ValidateWorktreeExists gitRoot worktreeName) = ok info ->
  let request :=
    {| command := Some (shellOf processEnv);
       args := [];
       options := {| cwd := path info;
                     env := Some (getPhantomEnv worktreeName (path info)
                                    ∪ processEnv);
                     stdio := None |} |} in
  let hist1 := hist ++ [done_call (ValidateWorktreeExists gitRoot worktreeName)
                                  (ok info)] in
  run h hist (shellInWorktree processEnv gitRoot dir worktreeName)
  = (h hist1 _ (SpawnProcess request),
     hist1 ++ [answered h hist1 (SpawnProcess request)]).
Proof.
  intros Hv request hist1. unfold shellInWorktree.
  rewrite run_bind, run_await. unfold answered. rewrite Hv. reflexivity.
Qed.

Lemma shell_unresolved processEnv (h : Backend) hist gitRoot dir worktreeName e :
  h hist _ (ValidateWorktreeExists gitRoot worktreeName) = err e ->
  run h hist (shellInWorktree processEnv gitRoot dir worktreeName)
  = (err e, hist ++ [done_call (ValidateWorktreeExists gitRoot worktreeName)
                               (err e)]).
Proof.
  intros Hv. unfold shellInWorktree.
  rewrite run_bind, run_await. unfold answered. rewrite Hv. reflexivity.
Qed.

Lemma spawned_app hist1 hist2 : spawned (hist1 ++ hist2) = spawned hist1 ++ spawned hist2.
Proof. apply omap_app. Qed.

(** C4.  [execInWorktree] hands back what the process backend answers: when
    the worktree resolves and the backend reports that the child ran and
    exited with code [n], zero or not, the result is [ok] with exit code
    [n]; and a failure result is either the failure of the worktree
    validation or the failure the process backend reported, nothing else. *)
Theorem exec_reports_exit_code (h : Backend) (hist : History)
    (gitRoot worktreeName : string) (cmdline : list string)
    (opts : ExecInWorktreeOptions) :
  let validation := h hist _ (ValidateWorktreeExists gitRoot worktreeName) in
  let hist1 := hist ++ [done_call (ValidateWorktreeExists gitRoot worktreeName)
                                  validation] in
  let result := (run h hist (execInWorktree gitRoot worktreeName cmdline opts)).1 in
  (∀ info request n,
      validation = ok info →
      spawned (run h hist (execInWorktree gitRoot worktreeName cmdline opts)).2
        = spawned hist ++ [request] →
      h hist1 _ (SpawnProcess request) = ok {| exitCode := n |} →
      result = ok {| exitCode := n |})
  ∧ (∀ e, result = err e →
          validation = err e
          ∨ ∃ request, h hist1 _ (SpawnProcess request) = err e
                       ∧ spawned (run h hist
                                    (execInWorktree gitRoot worktreeName cmdline opts)).2
                         = spawned hist ++ [request]).
Proof.
  intros validation hist1 result. subst result. split.
  - intros info request n Hv Hs Hn.
    rewrite (exec_resolved h hist gitRoot worktreeName cmdline opts info Hv) in *.
    cbn [fst snd] in *. subst hist1. fold validation in Hv. rewrite Hv in Hn.
    rewrite !spawned_app in Hs. cbn in Hs.
    rewrite app_nil_r in Hs. apply app_inv_head in Hs.
    injection Hs as <-. exact Hn.
  - intros e He. destruct validation as [info | e'] eqn:Hv; subst validation.
    + right.
      rewrite (exec_resolved h hist gitRoot worktreeName cmdline opts info Hv) in *.
      cbn [fst snd] in *. eexists. split; [exact He |].
      rewrite !spawned_app. cbn. by rewrite app_nil_r.
    + left.
      rewrite (exec_unresolved h hist gitRoot worktreeName cmdline opts e' Hv) in He.
      cbn in He. congruence.
Qed.

(** C4, at work: [sh -c "exit 7"] in an existing worktree yields [ok] with
    exit code 7. *)
Lemma exec_reports_exit_code_witness :
  (run (worldBackend fixtureWorld) []
       (execInWorktree "/repo" "feature-x" ["sh"; "-c"; "exit 7"]
                       {| interactive := None |})).1
  = ok {| exitCode := 7 |}.
Proof.
  pose proof (exec_reports_exit_code (worldBackend fixtureWorld) [] "/repo"
                "feature-x" ["sh"; "-c"; "exit 7"] {| interactive := None |}) as H.
  cbv zeta in H. destruct H as [H _].
  eapply H; reflexivity.
Defined.

(** C6.  When the worktree validation fails, [shellInWorktree] and
    [execInWorktree] both return that failure (by the validation's type a
    [WorktreeNotFoundError]) and the validation is the only call they make:
    the process backend is never asked to spawn. *)
Theorem unresolved_worktree_spawns_nothing (processEnv : gmap string string)
    (h : Backend) (hist : History) (gitRoot worktreeDirectory worktreeName : string)
    (cmdline : list string) (opts : ExecInWorktreeOptions) (e : Error) :
  h hist _ (ValidateWorktreeExists gitRoot worktreeName) = err e →
  let asked := [done_call (ValidateWorktreeExists gitRoot worktreeName) (err e)] in
  run h hist (shellInWorktree processEnv gitRoot worktreeDirectory worktreeName)
    = (err e, hist ++ asked)
  ∧ run h hist (execInWorktree gitRoot worktreeName cmdline opts)
    = (err e, hist ++ asked)
  ∧ spawned asked = []
  ∧ Forall (fun d => isSpawn d = false) asked.
Proof.
  intros Hv asked. split; [| split; [| split]].
  - by apply shell_unresolved.
  - by apply exec_unresolved.
  - reflexivity.
  - by repeat constructor.
Qed.

Lemma unresolved_worktree_spawns_nothing_witness :
  let asked := [done_call (ValidateWorktreeExists "/repo" "non-existent")
                          (err (WorktreeNotFoundError "non-existent"))] in
  run (worldBackend fixtureWorld) []
      (shellInWorktree ∅ "/repo" "/repo/.git/phantom/worktrees" "non-existent")
    = (err (WorktreeNotFoundError "non-existent"), [] ++ asked)
  ∧ run (worldBackend fixtureWorld) []
        (execInWorktree "/repo" "non-existent" ["ls"] {| interactive := None |})
    = (err (WorktreeNotFoundError "non-existent"), [] ++ asked)
  ∧ spawned asked = []
  ∧ Forall (fun d => isSpawn d = false) asked.
Proof.
  apply (unresolved_worktree_spawns_nothing ∅ (worldBackend fixtureWorld) []
           "/repo" "/repo/.git/phantom/worktrees" "non-existent" ["ls"]
           {| interactive := None |} (WorktreeNotFoundError "non-existent")).
  reflexivity.
Defined.

(** C8.  Once the worktree resolves, [execInWorktree] makes exactly one
    request to the process backend.  Unless the [interactive] option is
    [true] (so also when it is absent or [false]) the request disables
    standard input and inherits standard output and standard error; when it
    is [true] all three streams are inherited. *)
Theorem exec_stdio_selection (h : Backend) (hist : History)
    (gitRoot worktreeName : string) (cmdline : list string)
    (opts : ExecInWorktreeOptions) (info : WorktreeInfo) :
  h hist _ (ValidateWorktreeExists gitRoot worktreeName) = ok info →
  ∃ request streams,
    spawned (run h hist (execInWorktree gitRoot worktreeName cmdline opts)).2
      = spawned hist ++ [request]
    ∧ stdio (options request) = Some streams
    ∧ (interactive opts ≠ Some true →
       streams = StdioEach ignore inherit inherit
       ∧ stdinOf streams = ignore
       ∧ stdoutOf streams = inherit
       ∧ stderrOf streams = inherit)
    ∧ (interactive opts = Some true →
       streams = StdioAll inherit
       ∧ stdinOf streams = inherit
       ∧ stdoutOf streams = inherit
       ∧ stderrOf streams = inherit).
Proof.
  intros Hv.
  rewrite (exec_resolved h hist gitRoot worktreeName cmdline opts info Hv).
  cbn [snd]. rewrite !spawned_app. cbn. rewrite app_nil_r.
  eexists _, _. split; [reflexivity |]. split; [reflexivity |].
  destruct (interactive opts) as [[|] |]; split; intros Hi; try done.
Qed.

Lemma exec_stdio_selection_witness :
  ∃ request streams,
    spawned (run (worldBackend fixtureWorld) []
               (execInWorktree "/repo" "feature-x" ["ls"; "-la"]
                               {| interactive := Some false |})).2
      = spawned [] ++ [request]
    ∧ stdio (options request) = Some streams
    ∧ (Some false ≠ Some true →
       streams = StdioEach ignore inherit inherit
       ∧ stdinOf streams = ignore
       ∧ stdoutOf streams = inherit
       ∧ stderrOf streams = inherit)
    ∧ (Some false = Some true →
       streams = StdioAll inherit
       ∧ stdinOf streams = inherit
       ∧ stdoutOf streams = inherit
       ∧ stderrOf streams = inherit).
Proof.
  apply (exec_stdio_selection (worldBackend fixtureWorld) [] "/repo" "feature-x"
           ["ls"; "-la"] {| interactive := Some false |}
           {| path := "/repo/.git/phantom/worktrees/feature-x" |}).
  reflexivity.
Defined.

Lemma getPhantomEnv_identifies (callerEnv : gmap string string)
    (worktreeName worktreePath : string) :
  let childEnv := getPhantomEnv worktreeName worktreePath ∪ callerEnv in
  childEnv !! "PHANTOM" = Some "1"
  ∧ childEnv !! "PHANTOM_NAME" = Some worktreeName
  ∧ childEnv !! "PHANTOM_PATH" = Some worktreePath
  ∧ ∀ key : string,
      key ≠ "PHANTOM" → key ≠ "PHANTOM_NAME" → key ≠ "PHANTOM_PATH" →
      childEnv !! key = callerEnv !! key.
Proof.
  cbv zeta. unfold getPhantomEnv. repeat split.
  - apply lookup_union_Some_l. by simplify_map_eq.
  - apply lookup_union_Some_l. by simplify_map_eq.
  - apply lookup_union_Some_l. by simplify_map_eq.
  - intros key H1 H2 H3. apply lookup_union_r. by simplify_map_eq.
Qed.

(** C2, as the code has it.  On the shell-entry path the one request made
    to the process backend runs in the worktree's directory and carries the
    caller's environment with the marker, the worktree's name and the
    resolved path laid over it.  On the exec-in-worktree path the one
    request carries the working directory and the stream setup but no
    environment at all. *)
Theorem spawn_environment (processEnv : gmap string string)
    (h : Backend) (hist : History) (gitRoot worktreeDirectory worktreeName : string)
    (cmdline : list string) (opts : ExecInWorktreeOptions) (info : WorktreeInfo) :
  h hist _ (ValidateWorktreeExists gitRoot worktreeName) = ok info →
  (∃ request,
      spawned (run h hist
                 (shellInWorktree processEnv gitRoot worktreeDirectory worktreeName)).2
        = spawned hist ++ [request]
      ∧ cwd (options request) = path info
      ∧ identifiesWorktree processEnv worktreeName (path info) request)
  ∧ (∃ request,
        spawned (run h hist (execInWorktree gitRoot worktreeName cmdline opts)).2
          = spawned hist ++ [request]
        ∧ cwd (options request) = path info
        ∧ env (options request) = None).
Proof.
  intros Hv. split.
  - rewrite (shell_resolved processEnv h hist gitRoot worktreeDirectory
               worktreeName info Hv).
    cbn [snd]. rewrite !spawned_app. cbn. rewrite app_nil_r.
    eexists. split; [reflexivity |]. split; [reflexivity |].
    eexists. split; [reflexivity |]. apply getPhantomEnv_identifies.
  - rewrite (exec_resolved h hist gitRoot worktreeName cmdline opts info Hv).
    cbn [snd]. rewrite !spawned_app. cbn. rewrite app_nil_r.
    eexists. by repeat split.
Qed.

Lemma spawn_environment_witness :
  let info := {| path := "/repo/.git/phantom/worktrees/feature-x" |} in
  (∃ request,
      spawned (run (worldBackend fixtureWorld) []
                 (shellInWorktree fixtureEnv "/repo" "/repo/.git/phantom/worktrees"
                                  "feature-x")).2
        = spawned [] ++ [request]
      ∧ cwd (options request) = path info
      ∧ identifiesWorktree fixtureEnv "feature-x" (path info) request)
  ∧ (∃ request,
        spawned (run (worldBackend fixtureWorld) []
                   (execInWorktree "/repo" "feature-x" ["ls"]
                                   {| interactive := None |})).2
          = spawned [] ++ [request]
        ∧ cwd (options request) = path info
        ∧ env (options request) = None).
Proof.
  apply (spawn_environment fixtureEnv (worldBackend fixtureWorld) [] "/repo"
           "/repo/.git/phantom/worktrees" "feature-x" ["ls"]
           {| interactive := None |}
           {| path := "/repo/.git/phantom/worktrees/feature-x" |}).
  reflexivity.
Defined.

(** C2 as stated fails on the exec-in-worktree path: the request that
    [execInWorktree] hands to the process backend for [ls] in the worktree
    [feature-x] does not identify the worktree. *)
Lemma exec_request_lacks_worktree_env :
  ¬ Forall (identifiesWorktree fixtureEnv "feature-x"
              "/repo/.git/phantom/worktrees/feature-x")
           (spawned (run (worldBackend fixtureWorld) []
                       (execInWorktree "/repo" "feature-x" ["ls"]
                                       {| interactive := None |})).2).
Proof.
  intros H.
  change (Forall (identifiesWorktree fixtureEnv "feature-x"
                    "/repo/.git/phantom/worktrees/feature-x")
            [ {| command := Some "ls"; args := [];
                 options := {| cwd := "/repo/.git/phantom/worktrees/feature-x";
                               env := None;
                               stdio := Some (StdioEach ignore inherit inherit) |} |} ])
    in H.
  apply Forall_cons_1 in H as [(childEnv & Henv & _) _].
  discriminate Henv.
Qed.

(** ** Post-delete commands *)

Lemma run_andThen {A B} (h : Backend) (p : Prog (Completion A))
    (f : A -> Prog (Completion B)) hist :
  run h hist (andThen p f)
  = match (run h hist p).1 with
    | Normal a => run h (run h hist p).2 (f a)
    | ExitWithError t c => (ExitWithError t c, (run h hist p).2)
    | ExitWithSuccess => (ExitWithSuccess, (run h hist p).2)
    | Throw t => (Throw t, (run h hist p).2)
    end.
Proof.
  unfold andThen. rewrite run_bind.
  destruct (run h hist p) as [[a | t c | | t] hist1]; reflexivity.
Qed.

(** One turn of the loop, by what the collaborators answer: the worktree
    does not resolve; the process backend fails to run the command; the
    command runs and exits with some code. *)
Lemma postDeleteCommand_cases (ec : ExitCodes) (processEnv : gmap string string)
    (h : Backend) hist gitRoot cmdText :
  let turn := run h hist (postDeleteCommand ec processEnv gitRoot cmdText) in
  let logged := done_call (OutputLog ("Executing: " +:+ cmdText)) tt in
  let complained e :=
    done_call (OutputError ("Failed to execute command: " +:+ message e)) tt in
  let resolve := ValidateWorktreeExists gitRoot "." in
  let failed := ExitWithError ("Post-delete command failed: " +:+ cmdText) in
  (∃ e, turn = (failed (exitCodeOr e (generalError ec)),
                hist ++ [logged; done_call resolve (err e); complained e]))
  ∨ ∃ info request,
      command request = Some (shellOf processEnv)
      ∧ args request = ["-c"; cmdText]
      ∧ ((∃ e, turn = (failed (exitCodeOr e (generalError ec)),
                       hist ++ [logged; done_call resolve (ok info);
                                done_call (SpawnProcess request) (err e);
                                complained e]))
         ∨ ∃ v, turn = (if decide (exitCode v = 0) then Normal tt
                        else failed (exitCode v),
                        hist ++ [logged; done_call resolve (ok info);
                                 done_call (SpawnProcess request) (ok v)])).
Proof.
  cbv zeta. unfold postDeleteCommand.
  rewrite run_bind, run_await. cbv beta iota zeta.
  rewrite run_bind. unfold answered.
  destruct (h hist _ (OutputLog ("Executing: " +:+ cmdText))).
  set (hist0 := hist ++ [done_call (OutputLog ("Executing: " +:+ cmdText)) ()]).
  destruct (h hist0 _ (ValidateWorktreeExists gitRoot ".")) as [info | e] eqn:Hv.
  - right. rewrite (exec_resolved h hist0 gitRoot "." _ _ info Hv). cbv zeta.
    unfold answered.
    match goal with
    | |- context [h ?hh _ (SpawnProcess ?r)] =>
        set (request := r); set (hist1 := hh)
    end.
    exists info, request. split; [done |]. split; [done |].
    destruct (h hist1 _ (SpawnProcess request)) as [v | e] eqn:Hs.
    + right. exists v.
      destruct (decide (exitCode v = 0)); cbn [run];
        subst hist1 hist0; by rewrite <- !app_assoc.
    + left. exists e. rewrite run_bind, run_await. unfold answered.
      destruct (h _ _ (OutputError _)). cbn [run].
      subst hist1 hist0. by rewrite <- !app_assoc.
  - left. exists e. rewrite (exec_unresolved h hist0 gitRoot "." _ _ e Hv).
    rewrite run_bind, run_await. unfold answered.
    destruct (h _ _ (OutputError _)). cbn [run].
    subst hist0. by rewrite <- !app_assoc.
Qed.

(** One turn of the loop: it asks the process backend at most once, for
    [shell -c cmdText], and completes normally exactly when that request is
    answered with exit code 0. *)
Lemma postDeleteCommand_run (ec : ExitCodes) (processEnv : gmap string string)
    (h : Backend) hist gitRoot cmdText :
  ∃ made,
    (run h hist (postDeleteCommand ec processEnv gitRoot cmdText)).2 = hist ++ made
    ∧ ((omap spawnOf made = []
        ∧ ∃ t c, (run h hist (postDeleteCommand ec processEnv gitRoot cmdText)).1
                 = ExitWithError t c)
       ∨ ∃ request answer,
           omap spawnOf made = [(request, answer)]
           ∧ command request = Some (shellOf processEnv)
           ∧ args request = ["-c"; cmdText]
           ∧ (run h hist (postDeleteCommand ec processEnv gitRoot cmdText)).1
             = match answer with
               | ok v =>
                   if decide (exitCode v = 0) then Normal tt
                   else ExitWithError ("Post-delete command failed: " +:+ cmdText)
                                      (exitCode v)
               | err e =>
                   ExitWithError ("Post-delete command failed: " +:+ cmdText)
                                 (exitCodeOr e (generalError ec))
               end).
Proof.
  destruct (postDeleteCommand_cases ec processEnv h hist gitRoot cmdText)
    as [[e ->] | (info & request & Hc & Ha & [[e ->] | [v ->]])];
    cbn [fst snd]; eexists; (split; [reflexivity |]).
  - left. split; [reflexivity | eauto].
  - right. by exists request, (err e).
  - right. by exists request, (ok v).
Qed.

(** C5.  The post-delete commands run strictly in declared order and stop
    at the first failure.  The requests made to the process backend are, one
    for one and in order, [shell -c c] for an initial stretch of the
    declared commands.  A request answered with a nonzero exit code is the
    last one made, and the handler then exits with an error that names that
    command and carries that exit code (likewise, with the error's own code
    or the general one, when the backend fails to run it).  Only when every
    request was answered with exit code 0 does the loop complete normally,
    having run every command.  And the loop does go on: as long as every
    request is answered with exit code 0 and the worktree resolves, the next
    command is run, so that then every command is run and the loop
    completes normally; a command whose worktree does not resolve is not
    run, is the end of the loop, and is the command the error names. *)
Theorem post_delete_commands_stop_at_first_failure
    (ec : ExitCodes) (processEnv : gmap string string)
    (h : Backend) (hist : History) (gitRoot : string) (cmds : list string) :
  ∃ made : History,
    let result := run h hist (postDeleteCommands ec processEnv gitRoot cmds) in
    let runs := omap spawnOf made in
    result.2 = hist ++ made
    ∧ Forall2 (fun r c => command r.1 = Some (shellOf processEnv)
                          ∧ args r.1 = ["-c"; c])
              runs (take (length runs) cmds)
    ∧ (∀ i request v,
          runs !! i = Some (request, ok v) → exitCode v ≠ 0 →
          length runs = S i
          ∧ ∃ c, cmds !! i = Some c
                 ∧ result.1 = ExitWithError ("Post-delete command failed: " +:+ c)
                                            (exitCode v))
    ∧ (∀ i request e,
          runs !! i = Some (request, err e) →
          length runs = S i
          ∧ ∃ c, cmds !! i = Some c
                 ∧ result.1 = ExitWithError ("Post-delete command failed: " +:+ c)
                                            (exitCodeOr e (generalError ec)))
    ∧ (result.1 = Normal tt → length runs = length cmds)
    ∧ (Forall (fun r => ∃ v, r.2 = ok v ∧ exitCode v = 0) runs →
       Forall (fun q => isOk q.2) (resolutions made) →
       length runs = length cmds ∧ result.1 = Normal tt)
    ∧ (∀ j root name e,
          resolutions made !! j = Some (root, name, err e) →
          length runs = j ∧ length (resolutions made) = S j
          ∧ ∃ c, cmds !! j = Some c
                 ∧ result.1 = ExitWithError ("Post-delete command failed: " +:+ c)
                                            (exitCodeOr e (generalError ec))).
Proof.
  revert hist. induction cmds as [| c rest IH]; intros hist.
  - exists []. cbn. rewrite app_nil_r. repeat split; try done; constructor.
  - cbn [postDeleteCommands]. rewrite run_andThen.
    destruct (postDeleteCommand_cases ec processEnv h hist gitRoot c)
      as [[e ->] | (info & request & Hc & Ha & [[e ->] | [v ->]])];
      cbn [fst snd].
    + (* the worktree did not resolve: nothing was spawned *)
      eexists. split; [reflexivity |]. cbn.
      split; [constructor |]. split; [done |]. split; [done |]. split; [done |].
      split.
      * intros _ Hres. apply Forall_cons_1 in Hres as [Hres _]. done.
      * intros [| j] root name e' Hj; cbn in Hj; [| done].
        injection Hj as <- <- <-. repeat split. by exists c.
    + (* the backend failed to run it: stop here *)
      eexists. split; [reflexivity |]. cbn.
      split; [by repeat constructor |].
      split; [intros [| i] request' v' Hi Hv'; cbn in Hi; done |].
      split.
      { intros [| i] request' e' Hi; cbn in Hi; [| done].
        injection Hi as <- <-. split; [done |]. by exists c. }
      split; [done |]. split.
      * intros Hruns. apply Forall_cons_1 in Hruns as [(v & Hv & _) _]. done.
      * intros [| j] root name e' Hj; cbn in Hj; done.
    + destruct (decide (exitCode v = 0)) as [Hz | Hnz].
      * (* exit code 0: on to the rest *)
        destruct (IH (hist ++ [done_call (OutputLog ("Executing: " +:+ c)) ();
                               done_call (ValidateWorktreeExists gitRoot ".") (ok info);
                               done_call (SpawnProcess request) (ok v)]))
          as (made2 & H2 & Hreq & Hbad & Herr & Hall & Hgo & Hlost).
        set (made1 := [done_call (OutputLog ("Executing: " +:+ c)) ();
                       done_call (ValidateWorktreeExists gitRoot ".") (ok info);
                       done_call (SpawnProcess request) (ok v)]) in *.
        assert (omap spawnOf made1 = [(request, ok v)]) as Hone by reflexivity.
        assert (resolutions made1 = [(gitRoot, ".", ok info)]) as Hres1
            by reflexivity.
        exists (made1 ++ made2). cbv zeta in *.
        assert (resolutions (made1 ++ made2) = resolutions made1 ++ resolutions made2)
          as -> by apply omap_app.
        rewrite omap_app, Hone, Hres1. clearbody made1.
        cbn [app length take].
        split; [by rewrite H2, <- app_assoc |].
        split; [by constructor |].
        split.
        { intros [| i] request' v' Hi Hv'; cbn in Hi.
          - injection Hi as <- <-. done.
          - destruct (Hbad i request' v' Hi Hv') as (Hlen & c' & Hc' & Hres).
            split; [by rewrite Hlen |]. exists c'. by split. }
        split.
        { intros [| i] request' e' Hi; cbn in Hi; [done |].
          destruct (Herr i request' e' Hi) as (Hlen & c' & Hc' & Hres).
          split; [by rewrite Hlen |]. exists c'. by split. }
        split; [intros Hn; by rewrite (Hall Hn) |].
        split.
        { intros Hruns Hres.
          apply Forall_cons_1 in Hruns as [_ Hruns].
          apply Forall_cons_1 in Hres as [_ Hres].
          destruct (Hgo Hruns Hres) as [Hlen Hnormal]. by rewrite Hlen. }
        intros [| j] root name e' Hj; cbn in Hj; [done |].
        destruct (Hlost j root name e' Hj) as (Hlen & Hlen' & c' & Hc' & Hres).
        split; [by rewrite Hlen |]. split; [by rewrite Hlen' |].
        exists c'. by split.
      * (* a nonzero exit code: stop here *)
        eexists. split; [reflexivity |]. cbn.
        split; [by repeat constructor |].
        split.
        { intros [| i] request' v' Hi Hv'; cbn in Hi; [| done].
          injection Hi as <- <-. split; [done |]. by exists c. }
        split; [intros [| i] request' e' Hi; cbn in Hi; done |].
        split; [done |]. split.
        -- intros Hruns. apply Forall_cons_1 in Hruns as [(v' & Hv & Hzero) _].
           injection Hv as <-. done.
        -- intros [| j] root name e' Hj; cbn in Hj; done.
Qed.

(** The commands [true], [false], [true]: the second one exits with code 1,
    the handler exits with that code naming [false], and the third command
    is never handed to the process backend. *)
Example post_delete_true_false_true :
  let result := run (worldBackend fixtureWorld) []
                  (postDeleteCommands fixtureExitCodes fixtureEnv "/repo"
                                      ["true"; "false"; "true"]) in
  result.1 = ExitWithError "Post-delete command failed: false" 1
  ∧ map (fun r => (command r, args r)) (spawned result.2)
    = [(Some "/bin/bash", ["-c"; "true"]); (Some "/bin/bash", ["-c"; "false"])].
Proof. vm_compute. split; reflexivity. Qed.

Lemma post_delete_commands_stop_at_first_failure_witness :
  let hooks cmds := run (worldBackend fixtureWorld) []
                      (postDeleteCommands fixtureExitCodes fixtureEnv "/repo" cmds) in
  (hooks ["true"; "false"; "true"]).1
  = ExitWithError "Post-delete command failed: false" 1
  ∧ length (omap spawnOf (hooks ["true"; "false"; "true"]).2) = 2%nat
  ∧ (hooks ["true"; "true"; "true"; "true"]).1 = Normal tt
  ∧ length (omap spawnOf (hooks ["true"; "true"; "true"; "true"]).2) = 4%nat.
Proof.
  cbv zeta.
  destruct (post_delete_commands_stop_at_first_failure fixtureExitCodes fixtureEnv
              (worldBackend fixtureWorld) [] "/repo" ["true"; "false"; "true"])
    as (made & Hmade & _ & Hbad & _).
  destruct (post_delete_commands_stop_at_first_failure fixtureExitCodes fixtureEnv
              (worldBackend fixtureWorld) [] "/repo" ["true"; "true"; "true"; "true"])
    as (made' & Hmade' & _ & _ & _ & _ & Hgo & _).
  cbv zeta in Hbad, Hgo. cbn [app] in Hmade, Hmade'.
  rewrite <- Hmade in Hbad. rewrite <- Hmade' in Hgo.
  destruct (Hbad 1%nat
              {| command := Some "/bin/bash"; args := ["-c"; "false"];
                 options := {| cwd := "/repo/.git/phantom/worktrees";
                               env := None;
                               stdio := Some (StdioEach ignore inherit inherit) |} |}
              {| exitCode := 1 |})
    as (Hlen & c & Hc & Hres).
  { vm_compute. reflexivity. }
  { cbn. lia. }
  destruct Hgo as [Hall Hnormal].
  { vm_compute. repeat constructor; eexists; split; reflexivity. }
  { vm_compute. repeat constructor. }
  split; [injection Hc as <-; exact Hres |].
  split; [exact Hlen |].
  split; [exact Hnormal | exact Hall].
Defined.

(** ** Configuration errors in the delete handler *)


Lemma run_tryCatch {A} (h : Backend) (body : Prog (Completion A))
    (handler : string -> Prog (Completion A)) hist :
  run h hist (tryCatch body handler)
  = match (run h hist body).1 with
    | Throw t => run h (run h hist body).2 (handler t)
    | r => (r, (run h hist body).2)
    end.
Proof.
  unfold tryCatch. rewrite run_bind.
  destruct (run h hist body) as [[a | t c | | t] hist1]; reflexivity.
Qed.

Lemma run_bind_fix {A B} (h : Backend) (p : Prog A) (f : A -> Prog B) hist :
  run h hist (bind p f) = run h (run h hist p).2 (f (run h hist p).1).
Proof.
  revert hist. induction p as [a | X c k IH]; intros hist; [reflexivity |].
  cbn. apply IH.
Qed.

(** Unfolds the handler's control operators and runs the program up to the
    next answer of the backend, which it then takes apart. *)
Ltac run_handler :=
  unfold tryCatch, andThen, selectWorktreeName, configWarning, postDeleteStage,
    exitWithError, exitWithSuccess, await, mbind, mret, Prog_bind, Prog_ret;
  cbn [run bind];
  repeat (match goal with
          | |- context [run _ _ (match ?x with _ => _ end)] =>
              destruct x eqn:?
          | |- context [run _ _ (bind (match ?x with _ => _ end) _)] =>
              destruct x eqn:?
          | |- context [run _ _ (bind (bind (match ?x with _ => _ end) _) _)] =>
              destruct x eqn:?
          end; cbn [run bind]).


(** With no configuration file, deleting [feature-x] succeeds without a
    warning and without running anything. *)
Example delete_without_config :
  let result := run (worldBackend fixtureWorld) []
                  (deleteHandler fixtureExitCodes fixtureEnv fixtureParseArgs
                                 ["feature-x"]) in
  result.1 = ExitWithSuccess
  ∧ failures result.2 = [AbsentConfig]
  ∧ warnings result.2 = []
  ∧ spawned result.2 = [].
Proof. vm_compute. by repeat split. Qed.

(** With a configuration file that does not parse, the user is warned and
    the deletion goes on. *)
Example delete_with_malformed_config :
  let world :=
    {| w_entries := w_entries fixtureWorld;
       w_branches := w_branches fixtureWorld;
       w_worktrees := w_worktrees fixtureWorld;
       w_exit := w_exit fixtureWorld;
       w_config := err (ConfigParseError "Unexpected token } in JSON");
       w_root := w_root fixtureWorld |} in
  let result := run (worldBackend world) []
                  (deleteHandler fixtureExitCodes fixtureEnv fixtureParseArgs
                                 ["feature-x"]) in
  result.1 = ExitWithSuccess
  ∧ warnings result.2 = ["Configuration warning: Unexpected token } in JSON"].
Proof. vm_compute. by repeat split. Qed.

(** ** Configuration validation *)

(** X1.  What [validateConfig] decides: it accepts exactly the objects whose
    [postCreate] has the declared shape, hands the accepted value back as it
    is, and rejects with a [ConfigValidationError]. *)
Lemma validateConfig_decides (config : JsValue) :
  (validateConfig config = ok config
   ∧ isObject config ∧ postCreateShape (getProp config "postCreate"))
  ∨ ((∃ detail, validateConfig config = err (ConfigValidationError detail))
     ∧ ¬ (isObject config ∧ postCreateShape (getProp config "postCreate"))).
Proof.
  unfold validateConfig, postCreateShape, optionalStrings.
  destruct (isObject config) eqn:Hobj; cbn [negb]; [| right; split; [eauto | naive_solver]].
  destruct (isUndefined (getProp config "postCreate")) eqn:Hpc; cbn [negb orb];
    [by left |].
  destruct (isObject (getProp config "postCreate")) eqn:Hpo; cbn [negb andb];
    [| right; split; [eauto | naive_solver]].
  set (postCreate := getProp config "postCreate").
  destruct (isUndefined (getProp postCreate "copyFiles")) eqn:Hcu; cbn [negb orb andb].
  - destruct (isUndefined (getProp postCreate "commands")) eqn:Hmu; cbn [negb orb];
      [by left |].
    destruct (getProp postCreate "commands") as [| | | | | items |] eqn:Hm;
      cbn; try (right; split; [eauto | naive_solver]).
    destruct (forallb isString items); cbn;
      [by left | right; split; [eauto | naive_solver]].
  - destruct (getProp postCreate "copyFiles") as [| | | | | files |] eqn:Hc;
      cbn; try (right; split; [eauto | naive_solver]).
    destruct (forallb isString files); cbn;
      [| right; split; [eauto | naive_solver]].
    destruct (isUndefined (getProp postCreate "commands")) eqn:Hmu; cbn [negb orb];
      [by left |].
    destruct (getProp postCreate "commands") as [| | | | | items |] eqn:Hm;
      cbn; try (right; split; [eauto | naive_solver]).
    destruct (forallb isString items); cbn;
      [by left | right; split; [eauto | naive_solver]].
Qed.

(** [validateConfig] never looks at [postDelete]: putting any value there
    leaves the verdict on an object as it was. *)
Lemma validateConfig_ignores_postDelete (props : list (string * JsValue))
    (section : JsValue) :
  isOk (validateConfig (JsObject (("postDelete", section) :: props)))
  = isOk (validateConfig (JsObject props)).
Proof.
  unfold validateConfig. cbn [isObject negb getProp assoc].
  repeat (destruct (decide _); [done |]).
  match goal with
  | |- isOk (match ?checked with _ => _ end) = _ => by destruct checked
  end.
Qed.

(** C9.  [validateConfig] accepts the configuration
    [{"postDelete": {"commands": 42}}], whose [postDelete] does not have the
    declared shape: the value is an object, [postCreate] is absent, and
    [postDelete] is never inspected. *)
Theorem validateConfig_accepts_malformed_postDelete :
  let config := JsObject [("postDelete", JsObject [("commands", JsNumber 42)])] in
  validateConfig config = ok config
  ∧ postDeleteShape (getProp config "postDelete") = false.
Proof. by split. Qed.


(** * Further properties of the code *)

(** ** Configuration validation, continued *)

(** X2.  The first check that fails names the error.  A value that is not an
    object is rejected as such; a [postCreate] that is not an object is
    rejected as such; and a malformed [copyFiles] is reported before
    [commands] is looked at, whatever [commands] holds.  The message always
    carries the prefix of [ConfigValidationError]. *)
Theorem validateConfig_first_failure (config : JsValue) :
  let postCreate := getProp config "postCreate" in
  (isObject config = false →
   validateConfig config = err (ConfigValidationError "Configuration must be an object")
   ∧ configMessage (ConfigValidationError "Configuration must be an object")
     = "Invalid phantom.config.json: Configuration must be an object")
  ∧ (isObject config → isUndefined postCreate = false → isObject postCreate = false →
     validateConfig config = err (ConfigValidationError "postCreate must be an object"))
  ∧ (isObject config → isObject postCreate →
     isUndefined (getProp postCreate "copyFiles") = false →
     (isArray (getProp postCreate "copyFiles") = false →
      validateConfig config
      = err (ConfigValidationError "postCreate.copyFiles must be an array"))
     ∧ (isArray (getProp postCreate "copyFiles") →
        everyString (getProp postCreate "copyFiles") = false →
        validateConfig config
        = err (ConfigValidationError "postCreate.copyFiles must contain only strings")))
  ∧ (isObject config → isObject postCreate →
     optionalStrings (getProp postCreate "copyFiles") →
     isUndefined (getProp postCreate "commands") = false →
     (isArray (getProp postCreate "commands") = false →
      validateConfig config
      = err (ConfigValidationError "postCreate.commands must be an array"))
     ∧ (isArray (getProp postCreate "commands") →
        everyString (getProp postCreate "commands") = false →
        validateConfig config
        = err (ConfigValidationError "postCreate.commands must contain only strings"))).
Proof.
  cbv zeta. unfold validateConfig, optionalStrings.
  split; [by intros -> |].
  split.
  { intros Ho Hu Hp. apply Is_true_true in Ho. by rewrite Ho, Hu, Hp. }
  split.
  - intros Ho Hp Hu. apply Is_true_true in Ho, Hp. rewrite Ho, Hp, Hu. cbn [negb].
    destruct (getProp config "postCreate"); try done.
    split.
    + by intros ->.
    + intros Ha He. apply Is_true_true in Ha. by rewrite Ha, He.
  - intros Ho Hp Hc Hu. apply Is_true_true in Ho, Hp. rewrite Ho, Hp, Hu. cbn [negb].
    destruct (getProp config "postCreate"); try done.
    assert ((if negb (isUndefined (getProp (JsObject props) "copyFiles"))
             then if negb (isArray (getProp (JsObject props) "copyFiles"))
                  then Some (ConfigValidationError "postCreate.copyFiles must be an array")
                  else if negb (everyString (getProp (JsObject props) "copyFiles"))
                       then Some (ConfigValidationError
                                    "postCreate.copyFiles must contain only strings")
                       else None
             else None) = None) as ->.
    { destruct (getProp (JsObject props) "copyFiles") as [| | | | | items |];
        try done. cbn in *. by destruct (forallb isString items). }
    split.
    + by intros ->.
    + intros Ha He. apply Is_true_true in Ha. by rewrite Ha, He.
Qed.

Lemma validateConfig_first_failure_witness :
  validateConfig (JsObject [("postCreate",
                             JsObject [("copyFiles", JsString "a.env");
                                       ("commands", JsNumber 1)])])
  = err (ConfigValidationError "postCreate.copyFiles must be an array").
Proof.
  pose proof (validateConfig_first_failure
                (JsObject [("postCreate",
                            JsObject [("copyFiles", JsString "a.env");
                                      ("commands", JsNumber 1)])])) as H.
  cbv zeta in H. destruct H as (_ & _ & H & _).
  destruct (H I I eq_refl) as [H1 _]. exact (H1 eq_refl).
Defined.

(** X3.  [validateConfig] reads nothing but [postCreate]: two objects with the
    same [postCreate] get the same verdict and, when rejected, the same
    error, whatever else they hold. *)
Theorem validateConfig_reads_only_postCreate (config1 config2 : JsValue) :
  isObject config1 → isObject config2 →
  getProp config1 "postCreate" = getProp config2 "postCreate" →
  isOk (validateConfig config1) = isOk (validateConfig config2)
  ∧ ∀ e, validateConfig config1 = err e ↔ validateConfig config2 = err e.
Proof.
  intros H1 H2 Heq. unfold validateConfig.
  apply Is_true_true in H1, H2. rewrite H1, H2, Heq. cbn [negb].
  match goal with
  | |- context [match ?checked with Some _ => _ | None => _ end] =>
      destruct checked
  end; by split.
Qed.

Lemma validateConfig_reads_only_postCreate_witness :
  isOk (validateConfig (JsObject [("postDelete", JsBool true);
                                  ("postCreate", JsObject [("commands", JsArray [])])]))
  = isOk (validateConfig (JsObject [("postCreate", JsObject [("commands", JsArray [])]);
                                    ("name", JsString "demo")])).
Proof.
  apply (validateConfig_reads_only_postCreate
           (JsObject [("postDelete", JsBool true);
                      ("postCreate", JsObject [("commands", JsArray [])])])
           (JsObject [("postCreate", JsObject [("commands", JsArray [])]);
                      ("name", JsString "demo")]));
    [exact I | exact I | reflexivity].
Defined.

(** ** Attach and exec, continued *)

(** X4.  An attach succeeds only after every check has passed: the name is
    valid, the returned path is the computed one, and the calls made are,
    in this order, an existence test answered no, a branch query answered
    yes and an attach request that succeeded. *)
Theorem attach_ok_only_after_all_checks
    (validateWorktreeName : string -> Result unit Error)
    (getWorktreePath : string -> string -> string)
    (h : Backend) (hist hist' : History) (gitRoot name target : string) :
  run h hist (attachWorktreeCore validateWorktreeName getWorktreePath gitRoot name)
  = (ok target, hist') →
  isOk (validateWorktreeName name)
  ∧ target = getWorktreePath gitRoot name
  ∧ hist' = hist ++ [done_call (ExistsSync target) false;
                     done_call (BranchExists gitRoot name) (ok true);
                     done_call (AttachWorktree gitRoot target name) (ok tt)].
Proof.
  unfold attachWorktreeCore.
  destruct (validateWorktreeName name); [| done].
  cbn. destruct (h hist _ (ExistsSync _)); [done |].
  cbn. destruct (h _ _ (BranchExists _ _)) as [[|] | e]; try done.
  cbn. destruct (h _ _ (AttachWorktree _ _ _)) as [[] | e]; [| done].
  cbn. intros [= <- <-]. by rewrite <- !app_assoc.
Qed.

Lemma attach_ok_only_after_all_checks_witness :
  isOk (fixtureValidateName "feature-x")
  ∧ "/repo/.git/phantom/worktrees/feature-x" = fixtureWorktreePath "/repo" "feature-x"
  ∧ (run (worldBackend fixtureWorld) []
       (attachWorktreeCore fixtureValidateName fixtureWorktreePath "/repo"
                           "feature-x")).2
    = [] ++ [done_call (ExistsSync "/repo/.git/phantom/worktrees/feature-x") false;
             done_call (BranchExists "/repo" "feature-x") (ok true);
             done_call (AttachWorktree "/repo"
                          "/repo/.git/phantom/worktrees/feature-x" "feature-x")
                       (ok tt)].
Proof.
  apply (attach_ok_only_after_all_checks fixtureValidateName fixtureWorktreePath
           (worldBackend fixtureWorld) [] _ "/repo" "feature-x"
           "/repo/.git/phantom/worktrees/feature-x").
  reflexivity.
Defined.

(** X5.  An attach that fails has changed nothing unless the failure is the
    attach request's own: before that request no call that could change the
    file system is made, and the request, when made, is the last call. *)
Theorem attach_failure_leaves_no_mutation
    (validateWorktreeName : string -> Result unit Error)
    (getWorktreePath : string -> string -> string)
    (h : Backend) (hist : History) (gitRoot name : string) (e : Error) :
  let result :=
    run h hist (attachWorktreeCore validateWorktreeName getWorktreePath gitRoot name) in
  result.1 = err e →
  ∃ made, result.2 = hist ++ made
          ∧ (Forall (fun d => isMutation d = false) made
             ∨ ∃ before,
                 made = before ++ [done_call (AttachWorktree gitRoot
                                               (getWorktreePath gitRoot name) name)
                                             (err e)]
                 ∧ Forall (fun d => isMutation d = false) before).
Proof.
  cbv zeta. unfold attachWorktreeCore.
  destruct (validateWorktreeName name).
  2:{ intros _. exists []. rewrite app_nil_r. split; [done | by left]. }
  cbn. destruct (h hist _ (ExistsSync _)) eqn:Hp.
  { intros _. eexists. split; [reflexivity |]. left. by repeat constructor. }
  cbn. destruct (h _ _ (BranchExists _ _)) as [[|] | e'] eqn:Hb.
  - cbn. destruct (h _ _ (AttachWorktree _ _ _)) as [[] | e'']; [done |].
    cbn. intros [= ->]. eexists. split; [by rewrite <- !app_assoc |].
    right. exists [done_call (ExistsSync (getWorktreePath gitRoot name)) false;
                   done_call (BranchExists gitRoot name) (ok true)].
    split; [done | by repeat constructor].
  - intros _. eexists. split; [cbn; by rewrite <- !app_assoc |].
    left. by repeat constructor.
  - intros _. eexists. split; [cbn; by rewrite <- !app_assoc |].
    left. by repeat constructor.
Qed.

(** The two ways to fail, on the fixture.  When git refuses the attach
    request, the calls made are the existence test, the branch query and the
    request itself, last, and nothing before it could change the file
    system.  When the branch is unknown, the calls made are the existence
    test and the branch query, and neither could. *)
Lemma attach_failure_leaves_no_mutation_witness :
  let refused := ExternalError "GitOperationError" "fatal: could not create work tree" None in
  let attach h name :=
    run h [] (attachWorktreeCore fixtureValidateName fixtureWorktreePath "/repo" name) in
  (∃ before,
      (attach (withAttach (err refused) (worldBackend fixtureWorld)) "feature-x").2
      = before ++ [done_call (AttachWorktree "/repo"
                                (fixtureWorktreePath "/repo" "feature-x") "feature-x")
                             (err refused)]
      ∧ length before = 2%nat
      ∧ Forall (fun d => isMutation d = false) before)
  ∧ length (attach (worldBackend fixtureWorld) "topic").2 = 2%nat
  ∧ Forall (fun d => isMutation d = false)
           (attach (worldBackend fixtureWorld) "topic").2.
Proof.
  cbv zeta. split.
  - destruct (attach_failure_leaves_no_mutation fixtureValidateName
                fixtureWorktreePath
                (withAttach
                   (err (ExternalError "GitOperationError"
                           "fatal: could not create work tree" None))
                   (worldBackend fixtureWorld))
                [] "/repo" "feature-x"
                (ExternalError "GitOperationError"
                   "fatal: could not create work tree" None) eq_refl)
      as (made & Hmade & [Hnone | (before & Hlast & Hbefore)]).
    + exfalso. cbn [app] in Hmade. rewrite <- Hmade in Hnone.
      apply Forall_cons_1 in Hnone as [_ Hnone].
      apply Forall_cons_1 in Hnone as [_ Hnone].
      apply Forall_cons_1 in Hnone as [Hattach _].
      discriminate Hattach.
    + exists before. cbn [app] in Hmade.
      pose proof (f_equal length Hmade) as Hlen.
      vm_compute in Hlen. change (3%nat = length made) in Hlen.
      rewrite Hmade, Hlast.
      split; [reflexivity |]. split; [| exact Hbefore].
      rewrite Hlast, length_app in Hlen. cbn [length] in Hlen. lia.
  - destruct (attach_failure_leaves_no_mutation fixtureValidateName
                fixtureWorktreePath (worldBackend fixtureWorld) [] "/repo" "topic"
                (BranchNotFoundError "topic") eq_refl)
      as (made & Hmade & [Hnone | (before & Hlast & Hbefore)]).
    + cbn [app] in Hmade. rewrite Hmade. split; [| exact Hnone].
      rewrite <- Hmade. reflexivity.
    + exfalso. cbn [app] in Hmade. rewrite <- Hmade in Hlast.
      apply (f_equal (fun l => isMutation <$> last l)) in Hlast.
      rewrite last_snoc in Hlast. discriminate Hlast.
Defined.



(** ** The delete handler, continued *)

(** X7.  A selection the handler cannot act on is refused before anything is
    asked of any collaborator: no name together with neither [--current]
    nor [--fzf], [--current] together with a name or [--fzf], or a name
    together with [--fzf] end the handler with the validation exit code and
    leave the history as it was. *)
Theorem delete_refuses_unusable_selection
    (ec : ExitCodes) (processEnv : gmap string string)
    (parseArgs : list string -> Thrown ParsedArgs)
    (h : Backend) (hist : History) (argv : list string) (parsed : ParsedArgs) :
  parseArgs argv = returned parsed →
  let named := bool_decide (positionals parsed ≠ []) in
  let byCurrent := default false (current (values parsed)) in
  let byFzf := default false (fzf (values parsed)) in
  (named = false ∧ byCurrent = false ∧ byFzf = false)
  ∨ ((named = true ∨ byFzf = true) ∧ byCurrent = true)
  ∨ (named = true ∧ byFzf = true) →
  ∃ text,
    run h hist (deleteHandler ec processEnv parseArgs argv)
    = (ExitWithError text (validationError ec), hist).
Proof.
  intros Hp named byCurrent byFzf Hbad. unfold deleteHandler. rewrite Hp.
  cbv zeta. fold byCurrent byFzf.
  assert (bool_decide (length (positionals parsed) ≠ 0%nat) = named) as ->.
  { subst named. destruct (positionals parsed); by cbn. }
  destruct named, byCurrent, byFzf; cbn; naive_solver.
Qed.

Lemma delete_refuses_unusable_selection_witness :
  ∃ text,
    run (worldBackend fixtureWorld) []
        (deleteHandler fixtureExitCodes fixtureEnv fixtureParseArgs [])
    = (ExitWithError text (validationError fixtureExitCodes), []).
Proof.
  apply (delete_refuses_unusable_selection fixtureExitCodes fixtureEnv
           fixtureParseArgs (worldBackend fixtureWorld) [] []
           {| values := {| force := None; current := None; fzf := Some false |};
              positionals := [] |}).
  - reflexivity.
  - left. by repeat split.
Defined.

(** The post-delete commands ask the collaborators for nothing but the
    resolution of a worktree, the run of a process and output. *)
Lemma postDeleteCommands_only_runs (ec : ExitCodes) (processEnv : gmap string string)
    (h : Backend) gitRoot cmds hist :
  ∃ made,
    (run h hist (postDeleteCommands ec processEnv gitRoot cmds)).2 = hist ++ made
    ∧ deleteRequests made = [] ∧ deletions made = [] ∧ currents made = []
    ∧ selections made = [] ∧ configLoads made = [] ∧ warnings made = []
    ∧ ((run h hist (postDeleteCommands ec processEnv gitRoot cmds)).1 = Normal tt
       ∨ ∃ t c, (run h hist (postDeleteCommands ec processEnv gitRoot cmds)).1
                = ExitWithError t c).
Proof.
  revert hist. induction cmds as [| c rest IH]; intros hist.
  - exists []. cbn. rewrite app_nil_r. repeat split; try done. by left.
  - cbn [postDeleteCommands]. rewrite run_andThen.
    destruct (postDeleteCommand_cases ec processEnv h hist gitRoot c)
      as [[e ->] | (info & request & Hc & Ha & [[e ->] | [v ->]])];
      cbn [fst snd].
    + eexists. split; [reflexivity |]. cbn. repeat split; try done. right; eauto.
    + eexists. split; [reflexivity |]. cbn. repeat split; try done. right; eauto.
    + destruct (decide (exitCode v = 0)).
      * destruct (IH (hist ++ [done_call (OutputLog ("Executing: " +:+ c)) ();
                               done_call (ValidateWorktreeExists gitRoot ".") (ok info);
                               done_call (SpawnProcess request) (ok v)]))
          as (made & Hm & H1 & H2 & H3 & H4 & H5 & H6 & Hr).
        eexists (_ ++ made). split; [by rewrite Hm, <- app_assoc |].
        unfold deleteRequests, deletions, currents, selections, configLoads,
          warnings in *.
        rewrite !omap_app. cbn. by repeat split.
      * eexists. split; [reflexivity |]. cbn. repeat split; try done. right; eauto.
Qed.

(** Takes the handler apart along every answer the backend can give; what
    is left are the runs that reach the post-delete commands. *)
Ltac delete_handler_cases ec processEnv parseArgs argv :=
  cbv zeta; unfold deleteHandler;
  destruct (parseArgs argv) as [parsed | thrownText] eqn:Hparse;
  [cbv zeta;
   destruct (bool_decide (length (positionals parsed) ≠ 0%nat)) eqn:Hnamed;
   destruct (default false (current (values parsed))) eqn:Hcurrent;
   destruct (default false (fzf (values parsed))) eqn:Hfzf;
   cbn [negb andb orb];
   run_handler
  | cbn [run fst snd] ].

(** Brings in what is known of the post-delete commands in a run that
    reaches them. *)
Ltac reach_post_delete :=
  rewrite !run_bind_fix;
  match goal with
  | |- context [run ?b ?hist (postDeleteCommands ?e ?pe ?g ?l)] =>
      let r := fresh "r" in
      let after := fresh "after" in
      let made := fresh "made" in
      let Hmade := fresh "Hmade" in
      let Hdr := fresh "Hdr" in
      let Hdel := fresh "Hdel" in
      let Hcur := fresh "Hcur" in
      let Hsel := fresh "Hsel" in
      let Hload := fresh "Hload" in
      let Hwarn := fresh "Hwarn" in
      let Hend := fresh "Hend" in
      let t := fresh "t" in
      let c := fresh "c" in
      destruct (postDeleteCommands_only_runs e pe b g l hist)
        as (made & Hmade & Hdr & Hdel & Hcur & Hsel & Hload & Hwarn & Hend);
      destruct (run b hist (postDeleteCommands e pe g l)) as [r after];
      cbn [fst snd] in *; subst after;
      destruct Hend as [-> | (t & c & ->)];
      cbn [run fst snd];
      unfold deleteRequests, deletions, currents, selections, configLoads,
        warnings in *;
      rewrite ?omap_app; cbn [omap app];
      rewrite ?Hdr, ?Hdel, ?Hcur, ?Hsel, ?Hload, ?Hwarn
  end.

(** X8.  In every run the handler asks for at most one deletion, with the force
    flag as given on the command line (off when absent), and without
    [--current] and [--fzf] for the first name on the command line.  A
    post-delete command is run only after that deletion has succeeded. *)
Theorem delete_asks_once_then_runs_hooks
    (ec : ExitCodes) (processEnv : gmap string string)
    (parseArgs : list string -> Thrown ParsedArgs)
    (h : Backend) (argv : list string) :
  let result := run h [] (deleteHandler ec processEnv parseArgs argv) in
  let made := result.2 in
  (length (deleteRequests made) ≤ 1)%nat
  ∧ (∀ parsed, parseArgs argv = returned parsed →
       Forall (fun q => q.2 = default false (force (values parsed)))
              (deleteRequests made)
       ∧ (default false (current (values parsed)) = false →
          default false (fzf (values parsed)) = false →
          Forall (fun q => Some q.1.2 = head (positionals parsed))
                 (deleteRequests made)))
  ∧ (spawned made ≠ [] → ∃ v, deletions made = [ok v]).
Proof.
  delete_handler_cases ec processEnv parseArgs argv.
  all: try reach_post_delete.
  all: cbn.
  all: split; [lia |].
  all: split; [| try done; eauto].
  all: try (intros ? [= <-]).
  all: try done.
  all: split; [by repeat constructor |].
  all: intros; try congruence; repeat constructor; cbn.
  all: destruct (positionals parsed); by cbn in *.
Qed.

Lemma delete_asks_once_then_runs_hooks_witness :
  Forall (fun q => q.2 = false ∧ Some q.1.2 = Some "feature-x")
         (deleteRequests
            (run (worldBackend fixtureWorld) []
               (deleteHandler fixtureExitCodes fixtureEnv fixtureParseArgs
                              ["feature-x"])).2).
Proof.
  destruct (delete_asks_once_then_runs_hooks fixtureExitCodes fixtureEnv
              fixtureParseArgs (worldBackend fixtureWorld) ["feature-x"])
    as (_ & H & _).
  destruct (H _ eq_refl) as [Hforce Hname].
  specialize (Hname eq_refl eq_refl).
  cbv zeta in *. rewrite Forall_forall in *. intros q Hq.
  split; [exact (Hforce q Hq) | exact (Hname q Hq)].
Defined.

(** X9.  When the deletion fails, the handler exits with the error's message and
    runs no post-delete command.  The exit code is the validation code for
    a worktree that was not found and for a worktree error whose message
    mentions uncommitted changes; it is the general code for every other
    error, among them any error that is not a worktree error, whatever its
    message says. *)
Theorem delete_failure_exit_code
    (ec : ExitCodes) (processEnv : gmap string string)
    (parseArgs : list string -> Thrown ParsedArgs)
    (h : Backend) (argv : list string) (e : Error) :
  let result := run h [] (deleteHandler ec processEnv parseArgs argv) in
  let made := result.2 in
  deletions made = [err e] →
  spawned made = []
  ∧ ∃ code,
      result.1 = ExitWithError (message e) code
      ∧ (instanceofWorktreeNotFoundError e → code = validationError ec)
      ∧ (instanceofWorktreeError e →
         includes (message e) "uncommitted changes" → code = validationError ec)
      ∧ (instanceofWorktreeError e = false → code = generalError ec)
      ∧ (instanceofWorktreeNotFoundError e = false →
         includes (message e) "uncommitted changes" = false →
         code = generalError ec).
Proof.
  delete_handler_cases ec processEnv parseArgs argv.
  all: try reach_post_delete.
  all: cbn [deletions omap fst snd app spawned fmap option_fmap option_map spawnOf].
  all: try (intros [=]; fail).
  all: intros [= <-]; split; [done |]; eexists; split; [reflexivity |].
  all: match goal with
       | |- context [instanceofWorktreeNotFoundError ?x] =>
           destruct (includes (message x) "uncommitted changes") eqn:Hinc;
           destruct x
       end.
  all: cbn [instanceofWorktreeNotFoundError instanceofWorktreeError andb];
    by repeat split.
Qed.

Lemma delete_failure_exit_code_witness :
  let dirty := "Worktree 'feature-x' has uncommitted changes. Use --force to delete anyway." in
  let refusing := withDeletion (fun _ => err (WorktreeError dirty))
                               (worldBackend fixtureWorld) in
  let failing := withDeletion (fun _ => err (ExternalError "GitOperationError" dirty None))
                              (worldBackend fixtureWorld) in
  let handler := deleteHandler fixtureExitCodes fixtureEnv fixtureParseArgs
                               ["feature-x"] in
  (run refusing [] handler).1 = ExitWithError dirty (validationError fixtureExitCodes)
  ∧ spawned (run refusing [] handler).2 = []
  ∧ (run failing [] handler).1 = ExitWithError dirty (generalError fixtureExitCodes).
Proof.
  cbv zeta.
  destruct (delete_failure_exit_code fixtureExitCodes fixtureEnv fixtureParseArgs
              (withDeletion
                 (fun _ => err (WorktreeError
                                  "Worktree 'feature-x' has uncommitted changes. Use --force to delete anyway."))
                 (worldBackend fixtureWorld))
              ["feature-x"]
              (WorktreeError
                 "Worktree 'feature-x' has uncommitted changes. Use --force to delete anyway."))
    as (Hs & code & Hr & _ & Hdirty & _); [vm_compute; reflexivity |].
  destruct (delete_failure_exit_code fixtureExitCodes fixtureEnv fixtureParseArgs
              (withDeletion
                 (fun _ => err (ExternalError "GitOperationError"
                                  "Worktree 'feature-x' has uncommitted changes. Use --force to delete anyway."
                                  None))
                 (worldBackend fixtureWorld))
              ["feature-x"]
              (ExternalError "GitOperationError"
                 "Worktree 'feature-x' has uncommitted changes. Use --force to delete anyway."
                 None))
    as (_ & code' & Hr' & _ & _ & Hother & _); [vm_compute; reflexivity |].
  split; [| split].
  - rewrite Hr. f_equal. apply Hdirty; [exact I | vm_compute; exact I].
  - exact Hs.
  - rewrite Hr'. f_equal. apply Hother. reflexivity.
Defined.

(** X10.  Without a worktree name there is no deletion.  With [--current], when
    the caller is in no worktree (the answer is null or the empty name) the
    handler exits with the validation code, and when the question itself
    fails it exits with the general code and the failure's text.  With
    [--fzf], a cancelled selection ends the handler with success and a
    failed selection with the general code and the error's message.  In
    none of these runs is a deletion asked for. *)
Theorem delete_needs_a_name
    (ec : ExitCodes) (processEnv : gmap string string)
    (parseArgs : list string -> Thrown ParsedArgs)
    (h : Backend) (argv : list string) :
  let result := run h [] (deleteHandler ec processEnv parseArgs argv) in
  let made := result.2 in
  let outside :=
    "Not in a worktree directory. The --current option can only be used from within a worktree." in
  (currents made = [returned None] ∨ currents made = [returned (Some "")] →
   result.1 = ExitWithError outside (validationError ec) ∧ deleteRequests made = [])
  ∧ (∀ t, currents made = [thrown t] →
          result.1 = ExitWithError t (generalError ec) ∧ deleteRequests made = [])
  ∧ (selections made = [ok None] →
     result.1 = ExitWithSuccess ∧ deleteRequests made = [])
  ∧ (∀ e, selections made = [err e] →
          result.1 = ExitWithError (message e) (generalError ec)
          ∧ deleteRequests made = []).
Proof.
  delete_handler_cases ec processEnv parseArgs argv.
  all: try reach_post_delete.
  all: cbn.
  all: repeat match goal with |- _ ∧ _ => split end.
  all: intros;
    repeat match goal with H : _ ∨ _ |- _ => destruct H end;
    by simplify_eq.
Qed.

Lemma delete_needs_a_name_witness :
  let h := withCurrent (returned None) (worldBackend fixtureWorld) in
  let result := run h [] (deleteHandler fixtureExitCodes fixtureEnv
                                        fixtureCurrentArgs []) in
  result.1
  = ExitWithError
      "Not in a worktree directory. The --current option can only be used from within a worktree."
      (validationError fixtureExitCodes)
  ∧ deleteRequests result.2 = [].
Proof.
  cbv zeta.
  destruct (delete_needs_a_name fixtureExitCodes fixtureEnv fixtureCurrentArgs
              (withCurrent (returned None) (worldBackend fixtureWorld)) [])
    as (H & _).
  apply H. left. vm_compute. reflexivity.
Defined.

(** ** Post-delete commands, continued *)

Lemma shellOf_not_empty (processEnv : gmap string string) : shellOf processEnv ≠ "".
Proof.
  unfold shellOf. destruct (processEnv !! "SHELL") as [s |]; [| done].
  by destruct (decide (s = "")).
Qed.

(** One turn of the loop, by the calls it makes: it resolves the worktree
    named [.] once and, when that succeeds, makes one request to the process
    backend. *)
Lemma postDeleteCommand_asks (ec : ExitCodes) (processEnv : gmap string string)
    (h : Backend) hist gitRoot cmdText :
  let turn := run h hist (postDeleteCommand ec processEnv gitRoot cmdText) in
  let request info :=
    {| command := Some (shellOf processEnv);
       args := ["-c"; cmdText];
       options := {| cwd := path info;
                     env := None;
                     stdio := Some (StdioEach ignore inherit inherit) |} |} in
  ∃ made,
    turn.2 = hist ++ made
    ∧ ((∃ e, resolutions made = [(gitRoot, ".", err e)] ∧ spawned made = []
             ∧ turn.1 ≠ Normal tt)
       ∨ ∃ info, resolutions made = [(gitRoot, ".", ok info)]
                 ∧ spawned made = [request info]).
Proof.
  cbv zeta. unfold postDeleteCommand.
  rewrite run_bind, run_await. cbv beta iota zeta.
  rewrite run_bind. unfold answered.
  destruct (h hist _ (OutputLog ("Executing: " +:+ cmdText))).
  set (hist0 := hist ++ [done_call (OutputLog ("Executing: " +:+ cmdText)) ()]).
  destruct (h hist0 _ (ValidateWorktreeExists gitRoot ".")) as [info | e] eqn:Hv.
  - rewrite (exec_resolved h hist0 gitRoot "." _ _ info Hv). cbv zeta.
    unfold answered.
    match goal with
    | |- context [h ?hh _ (SpawnProcess ?r)] =>
        set (request := r); set (hist1 := hh)
    end.
    destruct (h hist1 _ (SpawnProcess request)) as [v | e] eqn:Hs.
    + exists [done_call (OutputLog ("Executing: " +:+ cmdText)) ();
              done_call (ValidateWorktreeExists gitRoot ".") (ok info);
              done_call (SpawnProcess request) (ok v)].
      split.
      * destruct (decide (exitCode v = 0)); cbn [run snd];
          subst hist1 hist0; by rewrite <- !app_assoc.
      * right. by exists info.
    + eexists (_ :: _ :: _ :: [_]). split.
      * rewrite run_bind, run_await. unfold answered. cbn [run snd].
        subst hist1 hist0. rewrite <- !app_assoc. reflexivity.
      * right. by exists info.
  - rewrite (exec_unresolved h hist0 gitRoot "." _ _ e Hv).
    eexists (_ :: _ :: [_]). split.
    + rewrite run_bind, run_await. unfold answered. cbn [run snd].
      subst hist0. rewrite <- !app_assoc. reflexivity.
    + left. exists e. repeat split. rewrite run_bind, run_await. by cbn.
Qed.

(** X11.  Every post-delete command is run through the shell of the caller's
    environment ([/bin/sh] when [SHELL] is unset or empty, so the program is
    never the empty string), as [shell -c command], non-interactively and
    with no environment of its own, in the directory that the worktree
    validation resolves for the name [.] at that moment, not in the deleted
    worktree.  The requests are those of the commands in order, one for each
    successful resolution. *)
Theorem post_delete_requests
    (ec : ExitCodes) (processEnv : gmap string string)
    (h : Backend) (hist : History) (gitRoot : string) (cmds : list string) :
  let request cmdText info :=
    {| command := Some (shellOf processEnv);
       args := ["-c"; cmdText];
       options := {| cwd := path info;
                     env := None;
                     stdio := Some (StdioEach ignore inherit inherit) |} |} in
  ∃ made,
    (run h hist (postDeleteCommands ec processEnv gitRoot cmds)).2 = hist ++ made
    ∧ shellOf processEnv ≠ ""
    ∧ Forall (fun q => q.1 = (gitRoot, ".")) (resolutions made)
    ∧ spawned made
      = zip_with request cmds
          (omap (fun q => match q.2 with ok info => Some info | err _ => None end)
                (resolutions made)).
Proof.
  cbv zeta. revert hist. induction cmds as [| c rest IH]; intros hist.
  - exists []. cbn. rewrite app_nil_r.
    split; [done |]. split; [apply shellOf_not_empty |]. by split.
  - cbn [postDeleteCommands]. rewrite run_andThen.
    destruct (postDeleteCommand_asks ec processEnv h hist gitRoot c)
      as (made1 & Hm1 & Hshape). cbv zeta in Hshape.
    destruct (run h hist (postDeleteCommand ec processEnv gitRoot c))
      as [turn hist1]. cbn [fst snd] in *. subst hist1.
    destruct Hshape as [(e & Hres & Hsp & Hne) | (info & Hres & Hsp)].
    + exists made1.
      split; [by destruct turn as [[] | | |] |].
      split; [apply shellOf_not_empty |].
      rewrite Hres, Hsp. split; [by apply Forall_singleton | cbn; by rewrite ?zip_with_nil_r].
    + destruct turn as [[] | t code | | t].
      * destruct (IH (hist ++ made1)) as (made2 & Hm2 & _ & Hall & Hzip).
        exists (made1 ++ made2).
        split; [by rewrite Hm2, app_assoc |].
        split; [apply shellOf_not_empty |].
        unfold resolutions, spawned in *. rewrite !omap_app.
        fold (resolutions made1) (resolutions made2) (spawned made1)
          (spawned made2) in *.
        rewrite Hres, Hsp, Hzip. split; [by apply Forall_cons | reflexivity].
      * exists made1. split; [done |]. split; [apply shellOf_not_empty |].
        rewrite Hres, Hsp. split; [by apply Forall_singleton | cbn; by rewrite ?zip_with_nil_r].
      * exists made1. split; [done |]. split; [apply shellOf_not_empty |].
        rewrite Hres, Hsp. split; [by apply Forall_singleton | cbn; by rewrite ?zip_with_nil_r].
      * exists made1. split; [done |]. split; [apply shellOf_not_empty |].
        rewrite Hres, Hsp. split; [by apply Forall_singleton | cbn; by rewrite ?zip_with_nil_r].
Qed.

(** ** The two delete handlers *)

(** X12.  The handler of the [cli] package never loads a configuration, never
    warns, never writes to the error output and never runs a process; a
    deletion that succeeds is followed by its message and the success exit,
    in every run. *)
Theorem cli_delete_runs_no_hooks
    (ec : ExitCodes) (parseArgs : list string -> Thrown ParsedArgs)
    (h : Backend) (argv : list string) :
  let result := run h [] (CliPackage.deleteHandler ec parseArgs argv) in
  let made := result.2 in
  configLoads made = [] ∧ warnings made = [] ∧ errorOutputs made = []
  ∧ spawned made = []
  ∧ (length (deleteRequests made) ≤ 1)%nat
  ∧ ∀ v, deletions made = [ok v] →
         result.1 = ExitWithSuccess ∧ logs made = [dw_message v].
Proof.
  cbv zeta. unfold CliPackage.deleteHandler.
  destruct (parseArgs argv) as [parsed | t];
    [| cbn; repeat split; (lia || done)].
  cbv zeta.
  destruct (negb _ && negb _ && negb _); [cbn; repeat split; (lia || done) |].
  destruct ((_ || _) && _); [cbn; repeat split; (lia || done) |].
  destruct (_ && _); [cbn; repeat split; (lia || done) |].
  run_handler.
  all: cbn; repeat split; try lia; try done.
  all: by simplify_eq.
Qed.

(** X13.  When no post-delete command is declared (the configuration is absent,
    malformed, or declares none), the handler with hooks reaches the same
    completion as the handler of the [cli] package and, the loading of the
    configuration and its warning apart, makes the same calls with the same
    answers.  The backend is any backend whose answers do not depend on
    what was asked before. *)
Theorem delete_handlers_agree_without_hooks
    (ec : ExitCodes) (processEnv : gmap string string)
    (parseArgs : list string -> Thrown ParsedArgs)
    (answer : forall X, Call X -> X) (argv : list string) :
  let h : Backend := fun _ => answer in
  (∀ gitRoot, declaresPostDelete (answer _ (LoadConfig gitRoot)) = false) →
  let old := run h [] (deleteHandler ec processEnv parseArgs argv) in
  let new := run h [] (CliPackage.deleteHandler ec parseArgs argv) in
  old.1 = new.1
  ∧ List.filter (fun d => negb (isConfigTraffic d)) old.2 = new.2.
Proof.
  intros h Hnone. cbv zeta. subst h.
  unfold deleteHandler, CliPackage.deleteHandler.
  destruct (parseArgs argv) as [parsed | t]; [| by cbn].
  cbv zeta.
  destruct (negb _ && negb _ && negb _); [by cbn |].
  destruct ((_ || _) && _); [by cbn |].
  destruct (_ && _); [by cbn |].
  run_handler.
  all: try (by cbn).
  all: match goal with
       | H : _ _ (LoadConfig ?g) = ok ?cfg |- _ =>
           specialize (Hnone g); rewrite H in Hnone; cbn in Hnone
       end.
  all: match goal with
       | H : option_bind _ _ _ _ = Some _ |- _ =>
           change (option_bind _ _ commands ?o) with (o ≫= commands) in H;
           rewrite H in Hnone; by cbn in Hnone
       end.
Qed.

Lemma delete_handlers_agree_without_hooks_witness :
  let h : Backend := worldBackend fixtureWorld in
  (run h [] (deleteHandler fixtureExitCodes fixtureEnv fixtureParseArgs
                           ["feature-x"])).1
  = (run h [] (CliPackage.deleteHandler fixtureExitCodes fixtureParseArgs
                                        ["feature-x"])).1.
Proof.
  cbv zeta.
  apply (delete_handlers_agree_without_hooks fixtureExitCodes fixtureEnv
           fixtureParseArgs (worldBackend fixtureWorld []) ["feature-x"]).
  reflexivity.
Defined.

(** ** The [where], [shell] and [list] handlers *)

Lemma runScript_chain {A B} (h : Handlers.Server) (p : Handlers.Script A)
    (f : A -> Handlers.Script B) hist :
  Handlers.runScript h hist (Handlers.chain p f)
  = Handlers.runScript h (Handlers.runScript h hist p).2
      (f (Handlers.runScript h hist p).1).
Proof.
  revert hist. induction p as [a | X a k IH]; intros hist; [reflexivity |].
  cbn. apply IH.
Qed.

(** Unfolds a handler's control operators and runs the script up to the
    next answer, which it then takes apart. *)
Ltac run_script :=
  unfold Handlers.catching, Handlers.exitError, Handlers.log, Handlers.ask,
    mbind, mret, Handlers.Script_bind, Handlers.Script_ret;
  cbn [Handlers.runScript Handlers.chain];
  repeat (match goal with
          | |- context [Handlers.runScript _ _ (match ?x with _ => _ end)] =>
              destruct x eqn:?
          | |- context [Handlers.runScript _ _
                          (Handlers.chain (match ?x with _ => _ end) _)] =>
              destruct x eqn:?
          | |- context [Handlers.runScript _ _
                          (Handlers.chain
                             (Handlers.chain (match ?x with _ => _ end) _) _)] =>
              destruct x eqn:?
          | |- context [Handlers.runScript _ _
                          (Handlers.chain
                             (Handlers.chain
                                (Handlers.chain (match ?x with _ => _ end) _) _) _)] =>
              destruct x eqn:?
          end; cbn [Handlers.runScript Handlers.chain]).

(** X14.  [whereHandler] prints the path of a worktree that is found, and nothing
    else, and ends with success; for a worktree that is not found it prints
    nothing and exits with the not-found code and the error's message.  It
    asks for at most one worktree, and a selection it cannot act on (no name
    without [--fzf], or a name with [--fzf]) is refused with the validation
    code before anything is asked. *)
Theorem where_prints_path_or_not_found
    (ec : ExitCodes) (parseWhereArgs : list string -> Thrown Handlers.WhereArgs)
    (h : Handlers.Server) (argv : list string) :
  let result := Handlers.runScript h [] (Handlers.whereHandler ec parseWhereArgs argv) in
  let made := result.2 in
  (∀ found, Handlers.whereResults made = [ok found] →
            result.1 = Handlers.ExitSuccess ∧ Handlers.logged made = [path found])
  ∧ (∀ e, Handlers.whereResults made = [err e] →
          result.1 = Handlers.ExitError (message e) (notFound ec)
          ∧ Handlers.logged made = [])
  ∧ (Handlers.whereResults made = [] → Handlers.logged made = [])
  ∧ (length (Handlers.whereResults made) ≤ 1)%nat
  ∧ (∀ parsed, parseWhereArgs argv = returned parsed →
       bool_decide (Handlers.wh_positionals parsed ≠ [])
       = default false (Handlers.wh_fzf parsed) →
       made = [] ∧ ∃ text, result.1 = Handlers.ExitError text (validationError ec)).
Proof.
  cbv zeta. unfold Handlers.whereHandler.
  destruct (parseWhereArgs argv) as [parsed | t] eqn:Hparse.
  2:{ cbn. repeat split; try lia; try done. }
  cbv zeta.
  assert (bool_decide (length (Handlers.wh_positionals parsed) ≠ 0%nat)
          = bool_decide (Handlers.wh_positionals parsed ≠ [])) as ->.
  { destruct (Handlers.wh_positionals parsed); by cbn. }
  destruct (bool_decide (Handlers.wh_positionals parsed ≠ [])) eqn:Hnamed;
    destruct (default false (Handlers.wh_fzf parsed)) eqn:Hfzf;
    cbn [negb andb]; run_script.
  all: cbn; repeat match goal with |- _ ∧ _ => split end; try lia.
  all: intros; simplify_eq; try done; try congruence; eauto.
Qed.

(** Takes [shellHandler] apart along the flags and along every answer. *)
Ltac shell_handler_cases parseShellArgs argv :=
  cbv zeta; unfold Handlers.shellHandler;
  destruct (parseShellArgs argv) as [parsed | thrownText] eqn:Hparse;
  [cbv zeta;
   destruct (bool_decide (length (Handlers.sh_positionals parsed) ≠ 0%nat)) eqn:Hnamed;
   destruct (default false (Handlers.sv_fzf (Handlers.sh_values parsed))) eqn:Hfzf;
   destruct (Handlers.truthy (Handlers.sv_tmux (Handlers.sh_values parsed)))
     eqn:Htmux;
   destruct (Handlers.truthy (Handlers.sv_tmux_vertical (Handlers.sh_values parsed)))
     eqn:Hvertical;
   destruct (Handlers.truthy (Handlers.sv_tmux_v (Handlers.sh_values parsed)))
     eqn:Hv;
   destruct (Handlers.truthy (Handlers.sv_tmux_horizontal (Handlers.sh_values parsed)))
     eqn:Hhorizontal;
   destruct (Handlers.truthy (Handlers.sv_tmux_h (Handlers.sh_values parsed)))
     eqn:Hh;
   cbn [negb andb orb];
   run_script;
   repeat match goal with
          | H : negb ?b = _ |- _ =>
              destruct b eqn:?; cbn [negb] in H; try discriminate H; clear H
          end
  | cbn [Handlers.runScript fst snd] ].

(** X15.  [shellHandler] opens a pane or window of the terminal multiplexer only
    after it has been told that it runs inside one, and then starts no shell
    of its own: in a run it opens a pane or starts a shell, never both and
    never twice.  Told that it is not inside the multiplexer, it exits with
    the validation code before any worktree is looked at. *)
Theorem shell_tmux_only_inside_tmux
    (ec : ExitCodes) (processEnv : gmap string string)
    (parseShellArgs : list string -> Thrown Handlers.ShellArgs)
    (h : Handlers.Server) (argv : list string) :
  let result :=
    Handlers.runScript h [] (Handlers.shellHandler ec processEnv parseShellArgs argv) in
  let made := result.2 in
  (Handlers.tmuxRequests made ≠ [] →
   Handlers.tmuxChecks made = [true] ∧ Handlers.shellStarts made = [])
  ∧ (Handlers.tmuxChecks made = [false] →
     result.1 = Handlers.ExitError
                  "The --tmux option can only be used inside a tmux session"
                  (validationError ec)
     ∧ Handlers.validations made = [] ∧ Handlers.tmuxRequests made = []
     ∧ Handlers.shellStarts made = [])
  ∧ (length (Handlers.tmuxRequests made) + length (Handlers.shellStarts made) ≤ 1)%nat.
Proof.
  shell_handler_cases parseShellArgs argv.
  all: cbn; repeat match goal with |- _ ∧ _ => split end; try lia.
  all: intros; simplify_eq; done.
Qed.



(** X18.  The shell that [shellHandler] starts decides how the handler ends: its
    exit code, zero or not, becomes the process exit code.  When the shell
    cannot be started the handler exits with the error's message and the
    not-found code for a worktree that has vanished, the error's own exit
    code when it has one that is not zero, and the general code otherwise
    (an exit code 0 on an error is not passed on). *)
Theorem shell_exit_code
    (ec : ExitCodes) (processEnv : gmap string string)
    (parseShellArgs : list string -> Thrown Handlers.ShellArgs)
    (h : Handlers.Server) (argv : list string) :
  let result :=
    Handlers.runScript h [] (Handlers.shellHandler ec processEnv parseShellArgs argv) in
  let made := result.2 in
  (∀ v, Handlers.shellResults made = [ok v] →
        result.1 = Handlers.ProcessExit (exitCode v))
  ∧ (∀ e, Handlers.shellResults made = [err e] →
          ∃ code,
            result.1 = Handlers.ExitError (message e) code
            ∧ (instanceofWorktreeNotFoundError e → code = notFound ec)
            ∧ (∀ cls m c, e = ExternalError cls m (Some c) → c ≠ 0 → code = c)
            ∧ (∀ cls m, e = ExternalError cls m (Some 0) ∨ e = ExternalError cls m None →
                        code = generalError ec)
            ∧ (instanceofWorktreeError e →
               instanceofWorktreeNotFoundError e = false → code = generalError ec)).
Proof.
  shell_handler_cases parseShellArgs argv.
  all: cbn; repeat match goal with |- _ ∧ _ => split end.
  all: intros; simplify_eq; try done.
  all: eexists; split; [reflexivity |].
  all: match goal with
       | |- context [instanceofWorktreeNotFoundError ?x] => destruct x
       end.
  all: cbn; repeat split; try done.
  all: intros; repeat match goal with H : _ ∨ _ |- _ => destruct H end;
    simplify_eq; cbn; try done.
  all: by destruct (decide _).
Qed.

(** *** Listing *)

Lemma jsLength_append (s t : string) :
  Handlers.jsLength (s +:+ t) = (Handlers.jsLength s + Handlers.jsLength t)%nat.
Proof.
  induction s as [| c s IH]; [done |].
  change (Handlers.codeUnits c + Handlers.jsLength (s +:+ t)
          = Handlers.codeUnits c + Handlers.jsLength s + Handlers.jsLength t)%nat.
  rewrite IH. lia.
Qed.

Lemma jsLength_spaces (n : nat) : Handlers.jsLength (Handlers.spaces n) = n.
Proof.
  induction n as [| n IH]; [done |].
  change (1 + Handlers.jsLength (Handlers.spaces n) = S n)%nat. by rewrite IH.
Qed.

(** [padEnd] fills up to the target length and leaves a longer string as it
    is. *)
Lemma padEnd_length (s : string) (n : nat) :
  Handlers.jsLength (Handlers.padEnd s n) = (Handlers.jsLength s `max` n)%nat.
Proof.
  unfold Handlers.padEnd. rewrite jsLength_append, jsLength_spaces. lia.
Qed.


Lemma run_forEach_log {A} (h : Handlers.Server) (rows : list A) (f : A -> string) hist :
  Handlers.runScript h hist (Handlers.forEach rows (fun x => Handlers.log (f x)))
  = (tt, hist ++ map (fun x => Handlers.asked (Handlers.Base (OutputLog (f x))) tt) rows).
Proof.
  revert hist. induction rows as [| x rest IH]; intros hist.
  - cbn. by rewrite app_nil_r.
  - cbn [Handlers.forEach]. unfold mbind, Handlers.Script_bind.
    rewrite runScript_chain. cbn [Handlers.log Handlers.ask Handlers.runScript fst snd].
    destruct (h hist _ (Handlers.Base (OutputLog (f x)))).
    rewrite IH. by rewrite <- app_assoc.
Qed.

Lemma logged_of_logs {A} (rows : list A) (f : A -> string) :
  Handlers.logged (map (fun x => Handlers.asked (Handlers.Base (OutputLog (f x))) tt) rows)
  = map f rows.
Proof. induction rows as [| x rest IH]; cbn; [done | by rewrite <- IH]. Qed.

(** What [listHandler] does once the worktrees are listed, without [--fzf]. *)
Lemma list_listed (ec : ExitCodes)
    (parseListArgs : list string -> Thrown Handlers.ListValues)
    (h : Handlers.Server) (argv : list string)
    (values : Handlers.ListValues) (listed : Handlers.ListWorktreesSuccess) :
  let result := Handlers.runScript h [] (Handlers.listHandler ec parseListArgs argv) in
  parseListArgs argv = returned values →
  Handlers.lv_fzf values = false →
  Handlers.listResults result.2 = [ok listed] →
  result.1 = Handlers.ProcessExit (success ec)
  ∧ Handlers.logged result.2
    = match Handlers.worktrees listed with
      | [] =>
          if Handlers.lv_names values then []
          else [match Handlers.lw_message listed with
                | Some m => if decide (m = "") then "No worktrees found." else m
                | None => "No worktrees found."
                end]
      | rows =>
          if Handlers.lv_names values then map Handlers.wt_name rows
          else map (Handlers.tableLine
                      (Handlers.maxOf
                         (map (fun wt => Handlers.jsLength (Handlers.wt_name wt)) rows)))
                   rows
      end.
Proof.
  cbv zeta. intros Hparse Hfzf. unfold Handlers.listHandler.
  rewrite Hparse, Hfzf.
  unfold Handlers.catching, Handlers.exitError, Handlers.ask, mbind, mret,
    Handlers.Script_bind, Handlers.Script_ret.
  cbn [Handlers.runScript Handlers.chain].
  destruct (h [] _ (Handlers.Base GetGitRoot)) as [gitRoot | t];
    cbn [Handlers.runScript Handlers.chain]; [| by cbn].
  destruct (h _ _ (Handlers.CreateContext gitRoot)) as [context | t];
    cbn [Handlers.runScript Handlers.chain]; [| by cbn].
  destruct (h _ _ (Handlers.ListWorktrees _ _)) as [listed' | e];
    cbn [Handlers.runScript Handlers.chain]; [| by cbn].
  destruct (Handlers.worktrees listed') as [| row rows] eqn:Hrows.
  - cbn [length bool_decide decide_rel].
    destruct (Handlers.lv_names values); cbn.
    + intros [= <-]. by rewrite Hrows.
    + intros [= <-]. by rewrite Hrows.
  - replace (bool_decide (length (row :: rows) = 0%nat)) with false by done.
    rewrite !runScript_chain.
    destruct (Handlers.lv_names values).
    + rewrite run_forEach_log. cbn [Handlers.runScript fst snd].
      unfold Handlers.listResults, Handlers.logged. rewrite !omap_app.
      fold (Handlers.logged
              (map (fun x => Handlers.asked (Handlers.Base (OutputLog (Handlers.wt_name x))) ())
                   (row :: rows))).
      rewrite logged_of_logs. cbn.
      assert (∀ l : list Handlers.Worktree,
                 omap (fun d =>
                         match d with
                         | Handlers.asked a x =>
                             match a in Handlers.Ask X
                                   return X -> option (Result Handlers.ListWorktreesSuccess Error)
                             with
                             | Handlers.ListWorktrees _ _ => fun r => Some r
                             | _ => fun _ => None
                             end x
                         end)
                      (map (fun x => Handlers.asked
                                       (Handlers.Base (OutputLog (Handlers.wt_name x))) ())
                           l) = []) as Hnone.
      { induction l; by cbn. }
      specialize (Hnone rows). cbn in Hnone |- *. rewrite Hnone.
      intros [= <-]. by rewrite Hrows.
    + rewrite run_forEach_log. cbn [Handlers.runScript fst snd].
      unfold Handlers.listResults, Handlers.logged. rewrite !omap_app.
      match goal with
      | |- context [omap Handlers.loggedOf (map ?g (row :: rows))] =>
          fold (Handlers.logged (map g (row :: rows)))
      end.
      rewrite logged_of_logs. cbn.
      match goal with
      | |- context [Handlers.tableLine ?m] => set (width := m)
      end.
      assert (∀ l : list Handlers.Worktree,
                 omap (fun d =>
                         match d with
                         | Handlers.asked a x =>
                             match a in Handlers.Ask X
                                   return X -> option (Result Handlers.ListWorktreesSuccess Error)
                             with
                             | Handlers.ListWorktrees _ _ => fun r => Some r
                             | _ => fun _ => None
                             end x
                         end)
                      (map (fun x => Handlers.asked
                                       (Handlers.Base
                                          (OutputLog (Handlers.tableLine width x))) ())
                           l) = []) as Hnone.
      { induction l; by cbn. }
      specialize (Hnone rows). cbn in Hnone |- *. rewrite Hnone.
      intros [= <-]. by rewrite Hrows.
Qed.




Example list_table_accented :
  Handlers.jsLength "café" = 4%nat
  ∧ Handlers.logged
      (Handlers.runScript
         (Handlers.fixtureServer (ok Handlers.fixtureAccentedListing) true) []
         (Handlers.listHandler fixtureExitCodes (Handlers.fixtureListArgs false) [])).2
    = ["café   (dev)"; "abcd   (dev) [dirty]"].
Proof. vm_compute. by split. Qed.

(** X20.  With [--names], [listHandler] prints the names of the worktrees, one a
    line in the order listed, and nothing else, so nothing at all when
    there are none.  Without it, an empty listing prints the listing's own
    message, or [No worktrees found.] when that message is missing or
    empty.  Either way the handler ends with the success code. *)
Theorem list_names_and_empty (ec : ExitCodes)
    (parseListArgs : list string -> Thrown Handlers.ListValues)
    (h : Handlers.Server) (argv : list string)
    (values : Handlers.ListValues) (listed : Handlers.ListWorktreesSuccess) :
  let result := Handlers.runScript h [] (Handlers.listHandler ec parseListArgs argv) in
  parseListArgs argv = returned values →
  Handlers.lv_fzf values = false →
  Handlers.listResults result.2 = [ok listed] →
  result.1 = Handlers.ProcessExit (success ec)
  ∧ (Handlers.lv_names values = true →
     Handlers.logged result.2 = map Handlers.wt_name (Handlers.worktrees listed))
  ∧ (Handlers.lv_names values = false → Handlers.worktrees listed = [] →
     (∀ m, Handlers.lw_message listed = Some m → m ≠ "" →
           Handlers.logged result.2 = [m])
     ∧ (Handlers.lw_message listed = None ∨ Handlers.lw_message listed = Some "" →
        Handlers.logged result.2 = ["No worktrees found."])).
Proof.
  cbv zeta. intros Hparse Hfzf Hlisted.
  destruct (list_listed ec parseListArgs h argv values listed Hparse Hfzf Hlisted)
    as [Hend Hlog].
  split; [exact Hend |]. rewrite Hlog. split.
  - intros ->. by destruct (Handlers.worktrees listed).
  - intros -> ->. split.
    + intros m -> Hm. by destruct (decide (m = "")).
    + by intros [-> | ->].
Qed.

Lemma list_names_and_empty_witness :
  Handlers.logged
    (Handlers.runScript (Handlers.fixtureServer (ok Handlers.fixtureListing) true) []
       (Handlers.listHandler fixtureExitCodes (Handlers.fixtureListArgs true) [])).2
  = ["feature-x"; "fix"].
Proof.
  destruct (list_names_and_empty fixtureExitCodes (Handlers.fixtureListArgs true)
              (Handlers.fixtureServer (ok Handlers.fixtureListing) true) []
              {| Handlers.lv_fzf := false; Handlers.lv_names := true |}
              Handlers.fixtureListing eq_refl eq_refl eq_refl)
    as (_ & Hnames & _).
  exact (Hnames eq_refl).
Defined.

Lemma runScript_extends {A} (h : Handlers.Server) (p : Handlers.Script A) hist :
  ∃ t, (Handlers.runScript h hist p).2 = hist ++ t.
Proof.
  revert hist. induction p as [a | X a k IH]; intros hist; cbn.
  - exists []. by rewrite app_nil_r.
  - destruct (IH (h hist X a) (hist ++ [Handlers.asked a (h hist X a)])) as [t Ht].
    exists (Handlers.asked a (h hist X a) :: t). by rewrite Ht, <- app_assoc.
Qed.

(** X21.  When the worktrees cannot be listed, [listHandler] prints nothing and
    exits with the general code and one fixed text: the message of the
    error it was given is not shown. *)
Theorem list_failure_is_generic (ec : ExitCodes)
    (parseListArgs : list string -> Thrown Handlers.ListValues)
    (h : Handlers.Server) (argv : list string) (e : Error) :
  let result := Handlers.runScript h [] (Handlers.listHandler ec parseListArgs argv) in
  Handlers.listResults result.2 = [err e] →
  result.1 = Handlers.ExitError "Failed to list worktrees" (generalError ec)
  ∧ Handlers.logged result.2 = [].
Proof.
  cbv zeta. unfold Handlers.listHandler.
  destruct (parseListArgs argv) as [values | t]; [| by cbn].
  unfold Handlers.catching, Handlers.exitError, Handlers.ask, mbind, mret,
    Handlers.Script_bind, Handlers.Script_ret.
  cbn [Handlers.runScript Handlers.chain].
  destruct (h [] _ (Handlers.Base GetGitRoot)) as [gitRoot | t];
    cbn [Handlers.runScript Handlers.chain]; [| by cbn].
  destruct (h _ _ (Handlers.CreateContext gitRoot)) as [context | t];
    cbn [Handlers.runScript Handlers.chain]; [| by cbn].
  destruct (Handlers.lv_fzf values); cbn [Handlers.runScript Handlers.chain].
  - destruct (h _ _ (Handlers.SelectWorktreeWithFzfIn _ _)) as [[w |] | e'];
      by cbn.
  - destruct (h _ _ (Handlers.ListWorktrees _ _)) as [listed | e'];
      cbn [Handlers.runScript Handlers.chain]; [| by intros [= <-]].
    match goal with
    | |- context [Handlers.runScript h ?hist ?p] =>
        destruct (runScript_extends h p hist) as [t Ht]; rewrite Ht
    end.
    unfold Handlers.listResults. rewrite !omap_app. by cbn.
Qed.

Lemma list_failure_is_generic_witness :
  (Handlers.runScript
     (Handlers.fixtureServer (err (ExternalError "GitError" "not a repository" None))
                             true) []
     (Handlers.listHandler fixtureExitCodes (Handlers.fixtureListArgs false) [])).1
  = Handlers.ExitError "Failed to list worktrees" (generalError fixtureExitCodes).
Proof.
  apply (list_failure_is_generic fixtureExitCodes (Handlers.fixtureListArgs false)
           (Handlers.fixtureServer
              (err (ExternalError "GitError" "not a repository" None)) true)
           [] (ExternalError "GitError" "not a repository" None)).
  reflexivity.
Defined.

Lemma where_prints_path_or_not_found_witness :
  let result :=
    Handlers.runScript (Handlers.fixtureServer (ok Handlers.fixtureListing) true) []
      (Handlers.whereHandler fixtureExitCodes Handlers.fixtureWhereArgs ["feature-x"]) in
  result.1 = Handlers.ExitSuccess
  ∧ Handlers.logged result.2 = ["/repo/.git/phantom/worktrees/feature-x"].
Proof.
  cbv zeta.
  destruct (where_prints_path_or_not_found fixtureExitCodes Handlers.fixtureWhereArgs
              (Handlers.fixtureServer (ok Handlers.fixtureListing) true)
              ["feature-x"]) as (Hfound & _).
  apply (Hfound {| path := "/repo/.git/phantom/worktrees/feature-x" |}).
  vm_compute. reflexivity.
Defined.

Lemma shell_tmux_only_inside_tmux_witness :
  let result :=
    Handlers.runScript (Handlers.fixtureServer (ok Handlers.fixtureListing) false) []
      (Handlers.shellHandler fixtureExitCodes fixtureEnv
                             (Handlers.fixtureShellArgs (Some true) (Some true)) ["feature-x"]) in
  result.1 = Handlers.ExitError
               "The --tmux option can only be used inside a tmux session"
               (validationError fixtureExitCodes)
  ∧ Handlers.validations result.2 = [] ∧ Handlers.tmuxRequests result.2 = []
  ∧ Handlers.shellStarts result.2 = [].
Proof.
  cbv zeta.
  destruct (shell_tmux_only_inside_tmux fixtureExitCodes fixtureEnv
              (Handlers.fixtureShellArgs (Some true) (Some true))
              (Handlers.fixtureServer (ok Handlers.fixtureListing) false)
              ["feature-x"]) as (_ & Houtside & _).
  apply Houtside. vm_compute. reflexivity.
Defined.



Lemma shell_exit_code_witness :
  (Handlers.runScript (Handlers.fixtureServer (ok Handlers.fixtureListing) true) []
     (Handlers.shellHandler fixtureExitCodes fixtureEnv
                            (Handlers.fixtureShellArgs None None) ["feature-x"])).1
  = Handlers.ProcessExit 3.
Proof.
  destruct (shell_exit_code fixtureExitCodes fixtureEnv
              (Handlers.fixtureShellArgs None None)
              (Handlers.fixtureServer (ok Handlers.fixtureListing) true)
              ["feature-x"]) as (Hok & _).
  apply (Hok {| exitCode := 3 |}). vm_compute. reflexivity.
Defined.

Lemma cli_delete_runs_no_hooks_witness :
  let result := run (worldBackend fixtureWorld) []
                  (CliPackage.deleteHandler fixtureExitCodes fixtureParseArgs
                                            ["feature-x"]) in
  result.1 = ExitWithSuccess ∧ logs result.2 = ["Deleted worktree 'feature-x'"].
Proof.
  cbv zeta.
  destruct (cli_delete_runs_no_hooks fixtureExitCodes fixtureParseArgs
              (worldBackend fixtureWorld) ["feature-x"]) as (_ & _ & _ & _ & _ & H).
  apply (H {| dw_message := "Deleted worktree 'feature-x'" |}).
  vm_compute. reflexivity.
Defined.

Lemma post_delete_requests_witness :
  spawned (run (worldBackend fixtureWorld) []
             (postDeleteCommands fixtureExitCodes fixtureEnv "/repo"
                                 ["true"; "false"; "true"])).2
  = [ {| command := Some "/bin/bash"; args := ["-c"; "true"];
         options := {| cwd := "/repo/.git/phantom/worktrees"; env := None;
                       stdio := Some (StdioEach ignore inherit inherit) |} |};
      {| command := Some "/bin/bash"; args := ["-c"; "false"];
         options := {| cwd := "/repo/.git/phantom/worktrees"; env := None;
                       stdio := Some (StdioEach ignore inherit inherit) |} |} ].
Proof.
  destruct (post_delete_requests fixtureExitCodes fixtureEnv
              (worldBackend fixtureWorld) [] "/repo" ["true"; "false"; "true"])
    as (made & Hmade & _ & _ & Hzip).
  cbn [app] in Hmade. rewrite Hmade, Hzip. rewrite <- Hmade.
  vm_compute. reflexivity.
Defined.
